(** * Kazungula tourism dashboard: filter and derived-metrics pipeline

    A shallow embedding of [dashboard_tourism.py].  The script is a
    straight-line Streamlit page; the parts embedded here are

    - [load_sample_data]        (lines 83-125), the synthetic arrivals frame,
    - [load_accommodation_data] (lines 127-137), the static reference table,
    - the sidebar date filter   (lines 197-205),
    - the KPI row               (lines 255-266),
    - the seasonality tab       (lines 421-459),
    - the RevPAR card           (lines 545-561),
    - the ROI calculator        (lines 774-798).

    Conventions.  A pandas frame is a list of rows in index order.  Integer
    columns are [Z].  binary64 columns of the generator are read as real
    numbers ([R], with [sin] and [PI] from the standard library); binary64
    values of the metrics are read as exact rationals ([Q]) extended with
    the IEEE special values the code can produce ([npfloat]).  Module
    [Binary64] re-evaluates the concrete calculator examples with the
    kernel's binary64 floats. *)

From Stdlib Require Import ZArith QArith Reals Lra Lia.
From Stdlib Require Import Floats.
From stdpp Require Import base list sorting strings gmap.

Local Open Scope Z_scope.

(** ** Calendar dates

    [datetime.date] values; Python compares them as the triples
    (year, month, day). *)

Record Date : Type := mkDate { year : Z; month : Z; day : Z }.

Definition date_leb (a b : Date) : bool :=
  (year a <? year b)
  || ((year a =? year b)
      && ((month a <? month b)
          || ((month a =? month b) && (day a <=? day b)))).

Definition date_le (a b : Date) : Prop := date_leb a b = true.
Definition date_lt (a b : Date) : Prop := date_leb b a = false.

#[global] Instance date_le_dec (a b : Date) : Decision (date_le a b).
Proof. unfold date_le. apply _. Defined.

#[global] Instance date_lt_dec (a b : Date) : Decision (date_lt a b).
Proof. unfold date_lt. apply _. Defined.

Definition is_leap (y : Z) : bool :=
  ((y mod 4 =? 0) && negb (y mod 100 =? 0)) || (y mod 400 =? 0).

Definition days_in_month (y m : Z) : Z :=
  if m =? 2 then (if is_leap y then 29 else 28)
  else if (m =? 4) || (m =? 6) || (m =? 9) || (m =? 11) then 30
  else 31.

(** The month end of the month numbered [k = 12 * year + (month - 1)]. *)
Definition month_end (k : Z) : Date :=
  let y := k / 12 in
  let m := k mod 12 + 1 in
  mkDate y m (days_in_month y m).

Definition month_number (d : Date) : Z := 12 * year d + (month d - 1).

(** [pd.date_range(start, end, freq='ME')]: the month ends [d] with
    [start <= d <= end], in increasing order. *)
Definition date_range_ME (start end_ : Date) : list Date :=
  let k0 := month_number start in
  let n := Z.to_nat (month_number end_ - k0 + 1) in
  filter (λ d, date_leb start d && date_leb d end_ = true)
         (map (λ i, month_end (k0 + Z.of_nat i)) (seq 0 n)).

(** ** The sidebar date filter (lines 197-205) *)

Section DateFilter.
Context {Row : Type} (date_of : Row → Date).

(** [mask = (df['date'].dt.date >= start_date)
          & (df['date'].dt.date <= end_date)] *)
Definition mask (start_date end_date : Date) (r : Row) : bool :=
  date_leb start_date (date_of r) && date_leb (date_of r) end_date.

(** [df[mask]] *)
Definition filterByDate (records : list Row) (start_date end_date : Date)
  : list Row :=
  filter (λ r, mask start_date end_date r = true) records.

(** The whole [if len(date_range) == 2: ... else: ...] block;
    [st.sidebar.date_input] hands back a tuple of zero, one or two
    dates. *)
Definition filter_block (date_range : list Date) (df : list Row)
  : list Row :=
  match date_range with
  | [start_date; end_date] => filterByDate df start_date end_date
  | _ => df
  end.

(** A collection is in chronological order when dates strictly increase
    along it. *)
Definition chronological (records : list Row) : Prop :=
  StronglySorted (λ a b, date_lt (date_of a) (date_of b)) records.
End DateFilter.

(** The error kinds section 7 of the specification names.  The script
    defines none of them and contains no [raise] statement. *)
Inductive SpecError : Type :=
  | InvalidRangeError
  | InsufficientDataError
  | InvalidInputError.

(** The contract of section 4.2 of the specification, written as the
    specification words it: an [InvalidRangeError] for a reversed range,
    the inclusive subset otherwise. *)
Definition spec_filterByDate {Row : Type} (date_of : Row → Date)
    (records : list Row) (start_date end_date : Date)
  : SpecError + list Row :=
  if date_leb start_date end_date
  then inr (filter (λ r, date_le start_date (date_of r)
                         ∧ date_le (date_of r) end_date) records)
  else inl InvalidRangeError.

(** ** Frames *)

(** Cells of columns assigned after a frame was built. *)
Inductive cell : Type :=
  | CInt (z : Z)
  | CStr (s : string).

#[global] Instance cell_eq_dec : EqDecision cell.
Proof. solve_decision. Defined.

(** A row of [df_arrivals]: the eleven columns [load_sample_data] builds,
    and [extra], the columns the page assigns to the frame later
    ([df['month'] = ...]), keyed by column name. *)
Record ArrivalRecord : Type := mkArrival {
  date : Date;
  total_arrivals : Z;
  international : Z;
  regional : Z;
  zambia : Z;
  zimbabwe : Z;
  botswana : Z;
  south_africa : Z;
  europe : Z;
  north_america : Z;
  asia : Z;
  extra : gmap string cell
}.

(** The column names of a row. *)
Definition generated_columns : list string :=
  ["date"; "total_arrivals"; "international"; "regional"; "zambia";
   "zimbabwe"; "botswana"; "south_africa"; "europe"; "north_america";
   "asia"]%string.

Definition columns (r : ArrivalRecord) : gset string :=
  list_to_set generated_columns ∪ dom (extra r).

(** [df[name] = values], row by row. *)
Definition set_column (name : string) (f : ArrivalRecord → cell)
    (r : ArrivalRecord) : ArrivalRecord :=
  mkArrival (date r) (total_arrivals r) (international r) (regional r)
            (zambia r) (zimbabwe r) (botswana r) (south_africa r)
            (europe r) (north_america r) (asia r)
            (<[name := f r]> (extra r)).

(** A row of [df_revenue]. *)
Record RevenueRecord : Type := mkRevenue {
  rev_date : Date;
  total_revenue_usd : Q;
  accommodation : Q;
  activities : Q;
  food_beverage : Q;
  transport : Q
}.

(** A row of [df_accommodation]. *)
Record AccommodationRecord : Type := mkAccommodation {
  facility_type : string;
  number_of_facilities : Z;
  total_rooms : Z;
  average_occupancy_rate : Z;
  average_rate_usd : Z
}.

(** ** binary64 results of the metrics

    Finite values are exact rationals kept in lowest terms; the three
    special values are the ones numpy's division and pandas' reductions
    hand back instead of raising. *)
Inductive npfloat : Type :=
  | Finite (q : Q)
  | PInf
  | NInf
  | NaN.

Definition is_nan (x : npfloat) : bool :=
  match x with NaN => true | _ => false end.


(** IEEE [<=]: false as soon as one side is NaN. *)
Definition np_leb (x y : npfloat) : bool :=
  match x, y with
  | NaN, _ | _, NaN => false
  | NInf, _ => true
  | _, PInf => true
  | Finite a, Finite b => Qle_bool a b
  | _, _ => false
  end.

(** [numpy.float64.__truediv__]: a zero divisor gives an infinity or NaN
    (with a RuntimeWarning), never an exception. *)
Definition np_truediv (x y : npfloat) : npfloat :=
  match x, y with
  | NaN, _ | _, NaN => NaN
  | Finite a, Finite b =>
      if Qeq_bool b 0
      then (if Qeq_bool a 0 then NaN
            else if Qle_bool 0 a then PInf else NInf)
      else Finite (Qred (a / b))
  | Finite _, _ => Finite 0
  | PInf, Finite b => if Qle_bool 0 b then PInf else NInf
  | NInf, Finite b => if Qle_bool 0 b then NInf else PInf
  | _, _ => NaN
  end.

Definition sumZ (xs : list Z) : Z := foldr Z.add 0 xs.
Definition sumQ (xs : list Q) : Q := Qred (foldr Qplus 0%Q xs).

(** [Series.sum()] and [Series.mean()] of an integer column.  The mean is
    sum over count; pandas gives NaN for a column without rows. *)
Definition series_sum (xs : list Z) : Z := sumZ xs.

Definition series_mean (xs : list Z) : npfloat :=
  np_truediv (Finite (inject_Z (sumZ xs)))
             (Finite (inject_Z (Z.of_nat (length xs)))).

(** ** The KPI row (lines 255-266) *)

(** [total_arrivals = df['total_arrivals'].sum()] and
    [avg_monthly_arrivals = df['total_arrivals'].mean()]. *)
Definition totalAndAverage (df : list ArrivalRecord) : Z * npfloat :=
  (series_sum (map total_arrivals df), series_mean (map total_arrivals df)).

(** [df.tail(k)] and [df.iloc[-24:-12]]. *)
Definition tail_rows {A : Type} (k : nat) (df : list A) : list A :=
  drop (length df - k) df.

Definition iloc_m24_m12 {A : Type} (df : list A) : list A :=
  take (length df - 12 - (length df - 24)) (drop (length df - 24) df).

Definition yoyGrowth (df : list ArrivalRecord) : Q :=
  if bool_decide (12 ≤ length df)%nat then
    let recent_12m := series_sum (map total_arrivals (tail_rows 12 df)) in
    let previous_12m :=
      if bool_decide (24 ≤ length df)%nat
      then series_sum (map total_arrivals (iloc_m24_m12 df))
      else recent_12m in
    if bool_decide (0 < previous_12m)
    then Qred (inject_Z (recent_12m - previous_12m)
               / inject_Z previous_12m * 100)
    else 0%Q
  else 0%Q.

(** The source-market dictionary of the second tab (lines 383-391). *)
Definition source_markets (df : list ArrivalRecord) : list (string * Z) :=
  [("South Africa", series_sum (map south_africa df));
   ("Europe", series_sum (map europe df));
   ("Zambia (Domestic)", series_sum (map zambia df));
   ("Zimbabwe", series_sum (map zimbabwe df));
   ("North America", series_sum (map north_america df));
   ("Botswana", series_sum (map botswana df));
   ("Asia", series_sum (map asia df))]%string.

(** ** The page as a state transformer

    The page keeps one mutable object of interest, the frame bound to
    [df_arrivals_filtered].  A block of the page is a function from the
    frame before to a result and the frame after. *)
Definition Page (A : Type) : Type :=
  list ArrivalRecord → A * list ArrivalRecord.

#[global] Instance page_ret : MRet Page := λ A a df, (a, df).
#[global] Instance page_bind : MBind Page :=
  λ A B f m df, let '(a, df') := m df in f a df'.

(** A block that only reads the frame. *)
Definition read {A : Type} (f : list ArrivalRecord → A) : Page A :=
  λ df, (f df, df).

(** [df_arrivals_filtered[name] = ...]: a column assignment on the frame
    object itself. *)
Definition assign_column (name : string) (f : ArrivalRecord → cell)
  : Page unit :=
  λ df, (tt, map (set_column name f) df).

Definition kpi_row : Page (Z * npfloat * Q) :=
  ta ← read totalAndAverage;
  yoy ← read yoyGrowth;
  mret (ta.1, ta.2, yoy).

Definition source_markets_tab : Page (list (string * Z)) :=
  read source_markets.

(** ** The seasonality tab (lines 421-459) *)

Definition month_names : list string :=
  ["January"; "February"; "March"; "April"; "May"; "June";
   "July"; "August"; "September"; "October"; "November";
   "December"]%string.

(** [Timestamp.strftime('%B')] *)
Definition strftime_B (d : Date) : string :=
  default ""%string (month_names !! Z.to_nat (month d - 1)).

(** [df.groupby(key)['total_arrivals'].mean()] read at one label: the
    mean over the rows whose [key] cell is that label, NaN when the label
    has no group (what [reindex] fills in). *)
Definition groupby_mean (key : string) (df : list ArrivalRecord)
    (label : string) : npfloat :=
  series_mean
    (map total_arrivals
         (filter (λ r, extra r !! key = Some (CStr label)) df)).

Definition reindexed_means (key : string) (labels : list string)
    (df : list ArrivalRecord) : list (string * npfloat) :=
  map (λ label, (label, groupby_mean key df label)) labels.

(** Lines 423-429. *)
Definition seasonality_tab : Page (list (string * npfloat)) :=
  _ ← assign_column "month" (λ r, CInt (month (date r)));
  _ ← assign_column "month_name" (λ r, CStr (strftime_B (date r)));
  read (reindexed_means "month_name" month_names).

(** The [skipna=True] reductions of a labelled series.  [le w v] reads
    "[v] is at least as extreme as [w]". *)
Section SkipNA.
Variable le : npfloat → npfloat → bool.

(** The label of the first entry that is not NaN and at least as
    extreme as every other entry that is not NaN.  [None] stands for the
    all-NaN series, which has no such entry. *)
Fixpoint skipna_arg (s : list (string * npfloat)) : option string :=
  match s with
  | [] => None
  | (k, v) :: rest =>
      if is_nan v then skipna_arg rest
      else if forallb (λ kv, is_nan kv.2 || le kv.2 v) rest
           then Some k else skipna_arg rest
  end.

Definition skipna_pick (x y : npfloat) : npfloat :=
  if is_nan x then y else if is_nan y then x
  else if le x y then y else x.

(** The most extreme value that is not NaN; NaN for the all-NaN
    series. *)
Definition skipna_reduce (s : list (string * npfloat)) : npfloat :=
  foldr (λ kv acc, skipna_pick kv.2 acc) NaN s.
End SkipNA.

(** [Series.idxmax()], [Series.idxmin()], [Series.max()],
    [Series.min()]. *)
Definition idxmax := skipna_arg np_leb.
Definition idxmin := skipna_arg (λ w v, np_leb v w).
Definition series_max := skipna_reduce np_leb.
Definition series_min := skipna_reduce (λ w v, np_leb v w).

Record SeasonResult : Type := mkSeason {
  monthly_avg : list (string * npfloat);
  peak_month : option string;
  low_month : option string;
  peak_mean : npfloat;
  low_mean : npfloat;
  seasonality_index : npfloat
}.

(** Lines 423-459: the means, then the four figures of the insight box. *)
Definition peakAndLowSeason : Page SeasonResult :=
  avg ← seasonality_tab;
  mret (mkSeason avg (idxmax avg) (idxmin avg)
                 (series_max avg) (series_min avg)
                 (np_truediv (series_max avg) (series_min avg))).

(** Section 4.3 of the specification on [peakAndLowSeason], as worded:
    an [InsufficientDataError] for the empty collection. *)
Definition spec_peakAndLowSeason (df : list ArrivalRecord)
  : SpecError + SeasonResult :=
  match df with
  | [] => inl InsufficientDataError
  | _ => inr (peakAndLowSeason df).1
  end.

(** ** The accommodation table and the RevPAR card *)

(** Lines 127-137. *)
Definition load_accommodation_data : list AccommodationRecord :=
  [mkAccommodation "Hotels" 12 450 68 120;
   mkAccommodation "Lodges" 18 280 72 180;
   mkAccommodation "Guest Houses" 25 180 55 45;
   mkAccommodation "Camping Sites" 8 150 45 25;
   mkAccommodation "Backpackers" 6 80 62 30]%string.

(** [total_accommodation_revenue / (total_capacity * len(df))]: the
    product is an integer product, the quotient a numpy float division. *)
Definition revpar (total_accommodation_revenue : Q)
    (total_capacity n_months : Z) : npfloat :=
  np_truediv (Finite total_accommodation_revenue)
             (Finite (inject_Z (total_capacity * n_months))).

(** Lines 545-561 on the page's own frames. *)
Definition revpar_card (df_accommodation : list AccommodationRecord)
    (df_revenue_filtered : list RevenueRecord) : npfloat :=
  let total_capacity := sumZ (map total_rooms df_accommodation) in
  let total_accommodation_revenue :=
    sumQ (map accommodation df_revenue_filtered) in
  revpar total_accommodation_revenue total_capacity
         (Z.of_nat (length df_revenue_filtered)).

(** ** The ROI calculator (lines 774-798) *)

Record RoiResult : Type := mkRoi {
  rooms_estimate : Q;
  annual_revenue : Q;
  operating_costs : Q;
  net_profit : Q;
  roi_years : Q;
  roi_percentage : option Q
}.

Definition roiCalculator (investment expected_occupancy avg_rate : Z)
  : RoiResult :=
  let rooms_estimate := Qred (inject_Z investment / 40000) in
  let annual_revenue :=
    Qred (rooms_estimate * 365 * (inject_Z expected_occupancy / 100)
          * inject_Z avg_rate) in
  let operating_costs := Qred (annual_revenue * (65 # 100)) in
  let net_profit := Qred (annual_revenue - operating_costs) in
  let roi_years :=
    if Qlt_le_dec 0 net_profit
    then Qred (inject_Z investment / net_profit) else 0%Q in
  let roi_percentage :=
    if Qlt_le_dec 0 roi_years
    then Some (Qred (net_profit / inject_Z investment * 100)) else None in
  mkRoi rooms_estimate annual_revenue operating_costs net_profit
        roi_years roi_percentage.

(** The payback card: a figure for [0 < roi_years < 100], "N/A"
    ([None]) otherwise. *)
Definition payback_period (r : RoiResult) : option Q :=
  if Qlt_le_dec 0 (roi_years r) then
    if Qlt_le_dec (roi_years r) 100 then Some (roi_years r) else None
  else None.

#[local] Set Warnings "-inexact-float".

(** The two calculator examples again, on the kernel's binary64 numbers,
    operation for operation. *)
Module Binary64.
Definition roi_net_profit (investment expected_occupancy avg_rate : float)
  : float * float * float :=
  let rooms_estimate := (investment / 40000)%float in
  let annual_revenue :=
    (rooms_estimate * 365 * (expected_occupancy / 100) * avg_rate)%float in
  let operating_costs := (annual_revenue * 0.65)%float in
  let net_profit := (annual_revenue - operating_costs)%float in
  (rooms_estimate, annual_revenue, net_profit).

Definition revpar (total_accommodation_revenue total_capacity n_months
  : float) : float :=
  (total_accommodation_revenue / (total_capacity * n_months))%float.
End Binary64.

(** ** The arrivals generator (lines 83-125)

    Over the reals.  [noise i] is the [i]-th draw of
    [np.random.normal(0, 1000, len(dates))] after [np.random.seed(42)]. *)

(** [ndarray.astype(int)] on a float: truncation towards zero. *)
Definition astype_int (x : R) : Z :=
  if Rle_dec 0 x then Zfloor x else - Zfloor (- x).

(** [np.linspace(start, stop, num)] *)
Definition linspace (start stop : R) (num : nat) : list R :=
  map (λ i, start + INR i * ((stop - start) / INR (num - 1)))%R
      (seq 0 num).

Definition dates : list Date :=
  date_range_ME (mkDate 2019 1 1) (mkDate 2024 10 31).

Definition covid_start : Date := mkDate 2020 3 1.
Definition covid_end : Date := mkDate 2021 12 31.

(** [covid_impact = np.ones(n)] with 0.3 written where the mask holds. *)
Definition covid_impact : list R :=
  map (λ d, if date_leb covid_start d && date_leb d covid_end
            then 0.3%R else 1%R) dates.

Section Generator.
Variable noise : nat → R.

Definition base_arrivals : R := 15000.
Definition trend : list R := linspace 0 5000 (length dates).
Definition seasonal : list R :=
  map (λ x, 5000 * sin x)%R (linspace 0 (5 * 2 * PI) (length dates)).
Definition noise_array : list R := map noise (seq 0 (length dates)).

(** Lines 106-107. *)
Definition arrivals : list R :=
  map (λ a, Rmax a 1000)
      (zip_with Rmult
         (zip_with Rplus
            (zip_with Rplus (map (Rplus base_arrivals) trend) seasonal)
            noise_array)
         covid_impact).

(** Lines 109-123. *)
Definition arrival_row (d : Date) (a : R) : ArrivalRecord :=
  mkArrival d (astype_int a)
            (astype_int (a * 0.65)) (astype_int (a * 0.35))
            (astype_int (a * 0.15)) (astype_int (a * 0.12))
            (astype_int (a * 0.08)) (astype_int (a * 0.25))
            (astype_int (a * 0.20)) (astype_int (a * 0.12))
            (astype_int (a * 0.08)) ∅.

Definition load_sample_data : list ArrivalRecord :=
  zip_with arrival_row dates arrivals.
End Generator.

(** The generator formula as section 4.1 of the specification words it. *)
Definition Rround (x : R) : Z :=
  let f := Zfloor x in
  if Rlt_dec (x - IZR f) (1 / 2) then f
  else if Rlt_dec (1 / 2) (x - IZR f) then f + 1
  else if Z.even f then f else f + 1.

Definition lerp (a b t : R) : R := (a + (b - a) * t)%R.

Definition spec_trend (n i : nat) : R :=
  lerp 0 5000 (INR i / INR (n - 1)).

Definition spec_seasonal (n i : nat) : R :=
  (5000 * sin (2 * PI * 5 * INR i / INR (n - 1)))%R.

(** Month [i] of the series (January 2019 is month 0) lies in the
    disruption window 2020-03 .. 2021-12. *)
Definition in_disruption_window (i : nat) : bool :=
  bool_decide (14 ≤ i ≤ 35)%nat.

Definition covid_multiplier (i : nat) : R :=
  if in_disruption_window i then 0.3%R else 1%R.

Definition spec_arrivals (noise : nat → R) (n i : nat) : R :=
  Rmax 1000
       (IZR (Rround (15000 + spec_trend n i + spec_seasonal n i + noise i))
        * covid_multiplier i).

(** What lines 106-107 compute at month [i]. *)
Definition arrivals_formula (noise : nat → R) (n i : nat) : R :=
  Rmax ((15000 + spec_trend n i + spec_seasonal n i + noise i)
        * covid_multiplier i) 1000.

(** The first draw for seed 42 is 496.7141530112327; the other draws do
    not enter month 0. *)
Definition noise_seed42_head (i : nat) : R :=
  match i with
  | O => (4967141530112327 / 10000000000000)%R
  | _ => 0%R
  end.

(** The row the seasonality tab leaves in place of [r]. *)
Definition with_month_columns (r : ArrivalRecord) : ArrivalRecord :=
  set_column "month_name" (λ r, CStr (strftime_B (date r)))
    (set_column "month" (λ r, CInt (month (date r))) r).

(** The values a per-month mean can take: NaN, or a finite number in
    lowest terms. *)
Definition mean_like (x : npfloat) : Prop :=
  match x with
  | Finite q => Qred q = q
  | NaN => True
  | PInf | NInf => False
  end.

(** ** The metric contracts as the specification words them *)

(** [totalAndAverage]: "mean over an empty collection is defined as 0". *)
Definition spec_totalAndAverage (df : list ArrivalRecord) : Z * npfloat :=
  let total := sumZ (map total_arrivals df) in
  match df with
  | [] => (total, Finite 0)
  | _ => (total, Finite (Qred (inject_Z total
                               / inject_Z (Z.of_nat (length df)))))
  end.




(** ** Sample frames

    Small frames on which the statements below are evaluated. *)
Definition sample_row (d : Date) (t : Z) : ArrivalRecord :=
  mkArrival d t (t * 65 / 100) (t * 35 / 100) (t * 15 / 100)
            (t * 12 / 100) (t * 8 / 100) (t * 25 / 100) (t * 20 / 100)
            (t * 12 / 100) (t * 8 / 100) ∅.

Definition three_months : list ArrivalRecord :=
  [sample_row (mkDate 2024 8 31) 19000;
   sample_row (mkDate 2024 9 30) 18000;
   sample_row (mkDate 2024 10 31) 21000].

(** Two years of twelve months each, 10000 arrivals a month in 2022 and
    12000 a month in 2023. *)
Definition two_flat_years : list ArrivalRecord :=
  map (λ i, sample_row (month_end (24264 + Z.of_nat i)) 10000) (seq 0 12)
  ++ map (λ i, sample_row (month_end (24276 + Z.of_nat i)) 12000)
         (seq 0 12).

(** The seven source-market counts of a row, added up. *)
Definition markets_of (r : ArrivalRecord) : Z :=
  zambia r + zimbabwe r + botswana r + south_africa r + europe r
  + north_america r + asia r.

(** Two revenue rows with the generator's shares. *)
Definition two_revenue_months : list RevenueRecord :=
  [mkRevenue (mkDate 2024 9 30) 1000000 450000 300000 150000 100000;
   mkRevenue (mkDate 2024 10 31) 2000000 900000 600000 300000 200000].

(** * The rest of the page *)

(** ** The default range of the sidebar (lines 187-195) *)

(** One day back; Python raises [OverflowError] before year 1
    ([None]). *)
Definition prev_day (d : Date) : option Date :=
  if 1 <? day d then Some (mkDate (year d) (month d) (day d - 1))
  else if 1 <? month d
       then Some (mkDate (year d) (month d - 1)
                         (days_in_month (year d) (month d - 1)))
       else if 1 <? year d then Some (mkDate (year d - 1) 12 31)
            else None.

(** [d - timedelta(days=n)] *)
Fixpoint minus_days (n : nat) (d : Date) : option Date :=
  match n with
  | O => Some d
  | S n' => prev_day d ≫= minus_days n'
  end.

(** [df['date'].max()] and [df['date'].min()]; nothing for a column
    without rows. *)
Definition date_max (ds : list Date) : option Date :=
  foldr (λ d acc, match acc with
                  | None => Some d
                  | Some m => if date_leb m d then Some d else Some m
                  end) None ds.

Definition date_min (ds : list Date) : option Date :=
  foldr (λ d acc, match acc with
                  | None => Some d
                  | Some m => if date_leb d m then Some d else Some m
                  end) None ds.

(** [value=(max_date - timedelta(days=365), max_date)], what
    [st.sidebar.date_input] hands back until the user picks a range. *)
Definition default_date_range (df : list ArrivalRecord)
  : option (list Date) :=
  max_date ← date_max (map date df);
  start_date ← minus_days 365 max_date;
  Some [start_date; max_date].

(** ** The growth statistics of the first tab (lines 359-375) *)

Inductive PyException : Type := ValueError.

(** [df['total_arrivals'].idxmax()] on the integer column: the row of the
    first largest value; nothing for a frame without rows, where pandas
    raises. *)
Fixpoint int_idxmax (df : list ArrivalRecord) : option ArrivalRecord :=
  match df with
  | [] => None
  | r :: rest =>
      match int_idxmax rest with
      | None => Some r
      | Some r' =>
          if total_arrivals r' <=? total_arrivals r then Some r
          else Some r'
      end
  end.

(** [df.loc[df['total_arrivals'].idxmax(), 'date']], the date the
    "Peak Month" card formats. *)
Definition peak_month_date (df : list ArrivalRecord)
  : PyException + Date :=
  match int_idxmax df with
  | Some r => inr (date r)
  | None => inl ValueError
  end.

(** Lines 359-364: the "YoY Growth" card of the tab, shown ([Some]) only
    for a positive previous year. *)
Definition growth_stats_yoy (df : list ArrivalRecord) : option Q :=
  let recent_year := series_sum (map total_arrivals (tail_rows 12 df)) in
  let prev_year :=
    if bool_decide (24 ≤ length df)%nat
    then series_sum (map total_arrivals (iloc_m24_m12 df))
    else 0 in
  if bool_decide (0 < prev_year)
  then Some (Qred (inject_Z (recent_year - prev_year)
                   / inject_Z prev_year * 100))
  else None.

(** What a block of the page can raise: an exception of Python or
    pandas, or one of the error kinds of the specification. *)
Inductive Signal : Type :=
  | PyRaised (e : PyException)
  | SpecRaised (e : SpecError).

(** The visitor-trends section in page order: the "Peak Month" card of
    the first tab (lines 366-367), then the seasonality tab
    (lines 423-459).  The script has no [try]: an exception of the first
    ends the run. *)
Definition trends_section (df : list ArrivalRecord)
  : Signal + (Date * SeasonResult) :=
  match peak_month_date df with
  | inl e => inl (PyRaised e)
  | inr d => inr (d, (peakAndLowSeason df).1)
  end.

(** The generated frame under a range inside October 2024. *)
Definition mid_october_selection : list ArrivalRecord :=
  filter_block date [mkDate 2024 10 1; mkDate 2024 10 15]
    (load_sample_data noise_seed42_head).

(** ** The revenue generator (lines 139-165), over the reals *)

Module RevenueGenerator.
Record row : Type := mkRow {
  date : Date;
  total_revenue_usd : R;
  accommodation : R;
  activities : R;
  food_beverage : R;
  transport : R
}.

Definition base_revenue : R := 2500000.
Definition trend : list R := linspace 0 800000 (length dates).
Definition seasonal : list R :=
  map (λ x, 800000 * sin x)%R (linspace 0 (5 * 2 * PI) (length dates)).

Definition covid_impact : list R :=
  map (λ d, if date_leb covid_start d && date_leb d covid_end
            then 0.25%R else 1%R) dates.

(** Line 154. *)
Definition revenue : list R :=
  zip_with Rmult
    (zip_with Rplus (map (Rplus base_revenue) trend) seasonal)
    covid_impact.

(** Lines 156-163.  The four products are products of real numbers; the
    binary64 columns of the script can differ from them in the last
    bit. *)
Definition revenue_row (d : Date) (rev : R) : row :=
  mkRow d rev (rev * 0.45) (rev * 0.30) (rev * 0.15) (rev * 0.10).

Definition load_revenue_data : list row :=
  zip_with revenue_row dates revenue.

(** The revenue of month [i] in closed form. *)
Definition revenue_formula (i : nat) : R :=
  ((2500000 + lerp 0 800000 (INR i / INR (70 - 1))
    + 800000 * sin (2 * PI * 5 * INR i / INR (70 - 1)))
   * (if in_disruption_window i then 0.25 else 1))%R.
End RevenueGenerator.

(** ** The delta of the revenue card (lines 257, 283-287) *)

(** [x * 100 - 100] on a float. *)
Definition np_pct_change_100 (x : npfloat) : npfloat :=
  match x with
  | Finite q => Finite (Qred (q * 100 - 100))
  | other => other
  end.

(** The delta of the "Total Revenue" card (line 286):
    [total_revenue / df_revenue['total_revenue_usd'].sum() * 100 - 100]. *)
Definition revenue_delta (df_revenue df_revenue_filtered
    : list RevenueRecord) : npfloat :=
  np_pct_change_100
    (np_truediv
       (Finite (sumQ (map total_revenue_usd df_revenue_filtered)))
       (Finite (sumQ (map total_revenue_usd df_revenue)))).

(** * Properties *)

(** ** Dates *)

Lemma date_leb_spec (a b : Date) :
  date_leb a b = true ↔
  year a < year b
  ∨ (year a = year b
     ∧ (month a < month b ∨ (month a = month b ∧ day a ≤ day b))).
Proof.
  unfold date_leb.
  rewrite !orb_true_iff, !andb_true_iff, !orb_true_iff, !andb_true_iff.
  rewrite !Z.ltb_lt, !Z.eqb_eq, Z.leb_le. tauto.
Qed.

Lemma date_le_trans (a b c : Date) :
  date_le a b → date_le b c → date_le a c.
Proof. unfold date_le. rewrite !date_leb_spec. lia. Qed.

Lemma date_lt_spec (a b : Date) :
  date_lt a b ↔ ¬ date_le b a.
Proof. unfold date_lt, date_le. destruct (date_leb b a); naive_solver. Qed.

(** ** The date filter *)

Section DateFilterFacts.
Context {Row : Type} (date_of : Row → Date).
Implicit Types (records : list Row) (s e : Date).

Lemma mask_true s e (r : Row) :
  mask date_of s e r = true ↔
  date_le s (date_of r) ∧ date_le (date_of r) e.
Proof. unfold mask, date_le. apply andb_true_iff. Qed.

Lemma elem_of_filterByDate records s e (r : Row) :
  r ∈ filterByDate date_of records s e ↔
  r ∈ records ∧ date_le s (date_of r) ∧ date_le (date_of r) e.
Proof.
  unfold filterByDate. rewrite list_elem_of_filter, mask_true. tauto.
Qed.

Lemma filterByDate_sublist records s e :
  filterByDate date_of records s e `sublist_of` records.
Proof. apply sublist_filter. Qed.

Lemma filter_StronglySorted (R : relation Row) (P : Row → Prop)
    `{!∀ x, Decision (P x)} records :
  StronglySorted R records → StronglySorted R (filter P records).
Proof.
  induction 1 as [|x l Hl IH Hx]; [constructor|].
  destruct (decide (P x)).
  - rewrite filter_cons_True by done. constructor; [done|].
    apply Forall_forall. intros y [_ Hy]%list_elem_of_filter.
    by eapply Forall_forall in Hx.
  - by rewrite filter_cons_False.
Qed.

Lemma filterByDate_reversed records s e :
  ¬ date_le s e → filterByDate date_of records s e = [].
Proof.
  intros Hse. unfold filterByDate.
  induction records as [|r l IH]; [done|].
  rewrite filter_cons_False; [done|].
  rewrite mask_true. intros [H1 H2]. apply Hse.
  by eapply date_le_trans.
Qed.
End DateFilterFacts.

(** C1.  For a range with [start_date <= end_date], the filter returns
    exactly the records dated within the inclusive interval: it is the
    inclusive subset the specification's contract asks for, a record is in
    it iff it is a source record dated in [[start_date, end_date]], and it
    is a subsequence of the source, so a chronologically ordered source
    gives a chronologically ordered result. *)
Theorem filterByDate_inclusive_in_order {Row : Type} (date_of : Row → Date)
    (records : list Row) (start_date end_date : Date) :
  date_le start_date end_date →
  spec_filterByDate date_of records start_date end_date
    = inr (filterByDate date_of records start_date end_date)
  ∧ (∀ r, r ∈ filterByDate date_of records start_date end_date ↔
          r ∈ records ∧ date_le start_date (date_of r)
          ∧ date_le (date_of r) end_date)
  ∧ filterByDate date_of records start_date end_date `sublist_of` records
  ∧ (chronological date_of records →
     chronological date_of
       (filterByDate date_of records start_date end_date)).
Proof.
  intros Hse. split; [|split; [|split]].
  - unfold spec_filterByDate. rewrite Hse. f_equal.
    apply list_filter_iff. intros r. symmetry. apply mask_true.
  - intros r. apply elem_of_filterByDate.
  - apply filterByDate_sublist.
  - apply filter_StronglySorted.
Qed.

Lemma filterByDate_inclusive_in_order_witness :
  date_le (mkDate 2024 9 30) (mkDate 2024 10 31)
  ∧ filterByDate date three_months (mkDate 2024 9 30) (mkDate 2024 10 31)
    = [sample_row (mkDate 2024 9 30) 18000;
       sample_row (mkDate 2024 10 31) 21000]
  ∧ filterByDate date three_months (mkDate 2024 9 30) (mkDate 2024 10 31)
    `sublist_of` three_months.
Proof.
  split; [reflexivity|]. split; [reflexivity|].
  exact (proj1 (proj2 (proj2
    (filterByDate_inclusive_in_order date three_months
       (mkDate 2024 9 30) (mkDate 2024 10 31) eq_refl)))).
Defined.

(** C6 as stated fails: for the reversed range 2024-10-31 .. 2019-01-01
    the filter hands back a result, the empty subset, where the
    specification's contract has [InvalidRangeError]. *)
Lemma filterByDate_reversed_range_returns :
  filterByDate date three_months (mkDate 2024 10 31) (mkDate 2019 1 1)
    = []
  ∧ spec_filterByDate date three_months (mkDate 2024 10 31)
      (mkDate 2019 1 1) = inl InvalidRangeError
  ∧ spec_filterByDate date three_months (mkDate 2024 10 31)
      (mkDate 2019 1 1)
    ≠ inr (filterByDate date three_months (mkDate 2024 10 31)
             (mkDate 2019 1 1)).
Proof. split; [reflexivity|]. split; [reflexivity|]. discriminate. Qed.

(** C6, amended.  Whenever [start_date > end_date] the filter returns the
    empty subset to the caller; no error is raised. *)
Theorem filterByDate_reversed_range_empty {Row : Type}
    (date_of : Row → Date) (records : list Row)
    (start_date end_date : Date) :
  date_lt end_date start_date →
  filterByDate date_of records start_date end_date = []
  ∧ filter_block date_of [start_date; end_date] records = [].
Proof.
  intros H%date_lt_spec. split; by apply filterByDate_reversed.
Qed.

Lemma filterByDate_reversed_range_empty_witness :
  date_lt (mkDate 2019 1 1) (mkDate 2024 10 31)
  ∧ filterByDate date three_months (mkDate 2024 10 31) (mkDate 2019 1 1)
    = [].
Proof.
  split; [reflexivity|].
  exact (proj1 (filterByDate_reversed_range_empty date three_months
                  (mkDate 2024 10 31) (mkDate 2019 1 1) eq_refl)).
Defined.

(** ** Float division and the reductions *)

Lemma Qeq_bool_inject_Z_0 (z : Z) :
  Qeq_bool (inject_Z z) 0 = bool_decide (z = 0).
Proof.
  unfold Qeq_bool, inject_Z. simpl. rewrite Z.mul_1_r.
  case_bool_decide as Hz.
  - subst. reflexivity.
  - apply Z.eqb_neq. exact Hz.
Qed.

Lemma np_truediv_nonzero (a b : Q) :
  ¬ (b == 0)%Q →
  np_truediv (Finite a) (Finite b) = Finite (Qred (a / b)).
Proof.
  intros Hb. simpl.
  destruct (Qeq_bool b 0) eqn:E; [|done].
  apply Qeq_bool_iff in E. contradiction.
Qed.

Lemma np_truediv_by_int (a : Q) (z : Z) :
  z ≠ 0 →
  np_truediv (Finite a) (Finite (inject_Z z))
    = Finite (Qred (a / inject_Z z)).
Proof.
  intros Hz. simpl. rewrite Qeq_bool_inject_Z_0.
  by rewrite bool_decide_eq_false_2.
Qed.


Lemma series_mean_cons (x : Z) (xs : list Z) :
  series_mean (x :: xs)
    = Finite (Qred (inject_Z (sumZ (x :: xs))
                    / inject_Z (Z.of_nat (length (x :: xs))))).
Proof. unfold series_mean. apply np_truediv_by_int. simpl length. lia. Qed.

Lemma series_mean_nil : series_mean [] = NaN.
Proof. reflexivity. Qed.

(** ** The KPI row *)

(** C5 as stated fails: on the empty collection the mean is NaN, not 0. *)
Lemma totalAndAverage_empty_mean_is_nan :
  totalAndAverage [] = (0, NaN)
  ∧ (totalAndAverage []).2 ≠ Finite 0
  ∧ totalAndAverage [] ≠ spec_totalAndAverage [].
Proof. split; [reflexivity|]. split; discriminate. Qed.

(** C5, amended.  [totalAndAverage] is defined on every collection and
    raises nothing: on the empty collection it returns sum 0 and mean NaN;
    on a collection with at least one record it returns the sum of
    [total_arrivals] and the arithmetic mean, sum over count, where it
    agrees with the specification's contract. *)
Theorem totalAndAverage_sum_and_mean :
  totalAndAverage [] = (0, NaN)
  ∧ ∀ (r : ArrivalRecord) (df : list ArrivalRecord),
      totalAndAverage (r :: df)
        = (total_arrivals r + sumZ (map total_arrivals df),
           Finite (Qred (inject_Z (total_arrivals r
                                   + sumZ (map total_arrivals df))
                         / inject_Z (Z.of_nat (S (length df))))))
      ∧ totalAndAverage (r :: df) = spec_totalAndAverage (r :: df).
Proof.
  split; [reflexivity|]. intros r df.
  unfold totalAndAverage, spec_totalAndAverage, series_sum.
  rewrite !fmap_cons, series_mean_cons. simpl sumZ. simpl length.
  rewrite length_fmap. done.
Qed.

Example totalAndAverage_three_months :
  totalAndAverage three_months = (58000, Finite (58000 # 3)).
Proof. reflexivity. Qed.

(** ** RevPAR *)



Example revpar_binary64 :
  Binary64.revpar 1000000 1000 10 = 100%float.
Proof. vm_compute. reflexivity. Qed.

(** C10.  [load_accommodation_data] is the fixed five-row table Hotels,
    Lodges, Guest Houses, Camping Sites, Backpackers; its [total_rooms]
    sum to 1140, a positive constant; so on the page the RevPAR card
    always divides by 1140 times the number of months, never by a zero
    room count. *)
Theorem accommodation_rooms_1140 :
  map facility_type load_accommodation_data
    = ["Hotels"; "Lodges"; "Guest Houses"; "Camping Sites";
       "Backpackers"]%string
  ∧ map total_rooms load_accommodation_data = [450; 280; 180; 150; 80]
  ∧ sumZ (map total_rooms load_accommodation_data) = 1140
  ∧ 0 < sumZ (map total_rooms load_accommodation_data)
  ∧ ∀ df_revenue_filtered : list RevenueRecord,
      revpar_card load_accommodation_data df_revenue_filtered
        = revpar (sumQ (map accommodation df_revenue_filtered)) 1140
                 (Z.of_nat (length df_revenue_filtered)).
Proof. repeat split. Qed.

(** ** The ROI calculator *)

(** C9 as stated fails: at investment 2,000,000, occupancy 65 and rate 150
    the annual revenue is 1,779,375, not 1,778,625, and the net profit is
    622,781.25, not 622,518.75. *)
Lemma roiCalculator_example_figures_differ :
  annual_revenue (roiCalculator 2000000 65 150) = 1779375%Q
  ∧ ¬ (annual_revenue (roiCalculator 2000000 65 150) == 1778625)%Q
  ∧ net_profit (roiCalculator 2000000 65 150) = (2491125 # 4)%Q
  ∧ ¬ (net_profit (roiCalculator 2000000 65 150) == 62251875 # 100)%Q
  ∧ (50 * 365 * (65 # 100) * 150 == 1779375)%Q.
Proof.
  split; [reflexivity|]. split; [discriminate|].
  split; [reflexivity|]. split; [discriminate|]. reflexivity.
Qed.

(** C9, amended.  The calculator follows rooms = investment / 40000,
    annualRevenue = rooms * 365 * (occupancy / 100) * rate,
    netProfit = annualRevenue * (1 - 0.65), and for a positive net profit
    paybackYears = investment / netProfit and
    annualRoiPct = netProfit / investment * 100.  At investment 2,000,000,
    occupancy 65 and rate 150 that is rooms = 50,
    annualRevenue = 1,779,375, netProfit = 622,781.25, a payback of
    3.21.. years and an annual ROI of 31.1..%. *)
Theorem roiCalculator_formulas_and_example :
  (∀ investment expected_occupancy avg_rate : Z,
     let r := roiCalculator investment expected_occupancy avg_rate in
     (rooms_estimate r == inject_Z investment / 40000)%Q
     ∧ (annual_revenue r
        == rooms_estimate r * 365 * (inject_Z expected_occupancy / 100)
           * inject_Z avg_rate)%Q
     ∧ (net_profit r == annual_revenue r * (1 - (65 # 100)))%Q
     ∧ ((0 < net_profit r)%Q →
        (roi_years r == inject_Z investment / net_profit r)%Q)
     ∧ (∀ pct, roi_percentage r = Some pct →
        (pct == net_profit r / inject_Z investment * 100)%Q))
  ∧ (let r := roiCalculator 2000000 65 150 in
     rooms_estimate r = 50%Q
     ∧ annual_revenue r = 1779375%Q
     ∧ net_profit r = (2491125 # 4)%Q
     ∧ (321 # 100 <= roi_years r < 322 # 100)%Q
     ∧ payback_period r = Some (roi_years r)
     ∧ ∃ pct, roi_percentage r = Some pct
              ∧ (311 # 10 <= pct < 312 # 10)%Q).
Proof.
  split.
  - intros investment expected_occupancy avg_rate r. subst r.
    unfold roiCalculator. cbn [rooms_estimate annual_revenue net_profit
                               roi_years roi_percentage operating_costs].
    split; [apply Qred_correct|].
    split; [apply Qred_correct|].
    split.
    { rewrite !Qred_correct. set (a := (_ * _ * _ * _)%Q). ring. }
    split.
    { intros Hpos. destruct (Qlt_le_dec 0 _) as [_|Hle].
      - apply Qred_correct.
      - exfalso. eapply Qlt_not_le; eassumption. }
    intros pct Hpct.
    destruct (Qlt_le_dec 0 (if Qlt_le_dec 0 _ then _ else _)); [|done].
    injection Hpct as <-. apply Qred_correct.
  - vm_compute. repeat split; try discriminate. eexists. repeat split; discriminate.
Qed.

Lemma roiCalculator_formulas_and_example_witness :
  (0 < net_profit (roiCalculator 2000000 65 150))%Q
  ∧ (roi_years (roiCalculator 2000000 65 150)
     == inject_Z 2000000 / net_profit (roiCalculator 2000000 65 150))%Q.
Proof.
  split; [reflexivity|].
  exact (proj1 (proj2 (proj2 (proj2
    (proj1 roiCalculator_formulas_and_example 2000000 65 150))))
    eq_refl).
Defined.

(** The same example on binary64 numbers: the three figures are exact. *)
Example roiCalculator_binary64 :
  Binary64.roi_net_profit 2000000 65 150
    = (50, 1779375, 622781.25)%float.
Proof. vm_compute. reflexivity. Qed.

(** ** Frame effects of the metric blocks *)

Lemma set_column_fields (name : string) (f : ArrivalRecord → cell)
    (r : ArrivalRecord) :
  date (set_column name f r) = date r
  ∧ total_arrivals (set_column name f r) = total_arrivals r
  ∧ international (set_column name f r) = international r
  ∧ regional (set_column name f r) = regional r
  ∧ zambia (set_column name f r) = zambia r
  ∧ zimbabwe (set_column name f r) = zimbabwe r
  ∧ botswana (set_column name f r) = botswana r
  ∧ south_africa (set_column name f r) = south_africa r
  ∧ europe (set_column name f r) = europe r
  ∧ north_america (set_column name f r) = north_america r
  ∧ asia (set_column name f r) = asia r.
Proof. repeat split. Qed.

Lemma seasonality_tab_unfold (df : list ArrivalRecord) :
  seasonality_tab df
    = (reindexed_means "month_name" month_names
         (map with_month_columns df),
       map with_month_columns df).
Proof.
  unfold seasonality_tab, mbind, page_bind, assign_column, read.
  cbv beta iota zeta. rewrite map_map. reflexivity.
Qed.

Lemma seasonality_tab_frame (df : list ArrivalRecord) :
  (seasonality_tab df).2 = map with_month_columns df.
Proof. by rewrite seasonality_tab_unfold. Qed.

Lemma peakAndLowSeason_frame (df : list ArrivalRecord) :
  (peakAndLowSeason df).2 = map with_month_columns df.
Proof.
  unfold peakAndLowSeason, mbind, page_bind, mret, page_ret.
  pose proof (seasonality_tab_frame df) as H.
  destruct (seasonality_tab df) as [avg df']. exact H.
Qed.

Lemma columns_with_month_columns (r : ArrivalRecord) :
  columns (with_month_columns r)
    = columns r ∪ {["month"%string; "month_name"%string]}.
Proof.
  unfold columns, with_month_columns, set_column. cbn [extra].
  rewrite !dom_insert_L. apply set_eq. intros x.
  rewrite !elem_of_union, !elem_of_singleton. tauto.
Qed.

(** C4 as stated fails: after the seasonality computation the filtered
    collection of three records no longer is what it was; its first record
    has gained the field [month_name]. *)
Lemma seasonality_tab_mutates_frame :
  (seasonality_tab three_months).2 ≠ three_months
  ∧ (peakAndLowSeason three_months).2 ≠ three_months
  ∧ (three_months !! 0%nat) ≫= (λ r, extra r !! "month_name"%string)
    = None
  ∧ ((seasonality_tab three_months).2 !! 0%nat)
      ≫= (λ r, extra r !! "month_name"%string)
    = Some (CStr "August").
Proof.
  assert (Hafter :
    ((seasonality_tab three_months).2 !! 0%nat)
      ≫= (λ r, extra r !! "month_name"%string)
    = Some (CStr "August")) by (vm_compute; reflexivity).
  assert (Hbefore :
    (three_months !! 0%nat) ≫= (λ r, extra r !! "month_name"%string)
    = None) by (vm_compute; reflexivity).
  split; [|split; [|split]]; [| |exact Hbefore|exact Hafter].
  - intros Heq. rewrite Heq, Hbefore in Hafter. discriminate.
  - rewrite peakAndLowSeason_frame, <- seasonality_tab_frame.
    intros Heq. rewrite Heq, Hbefore in Hafter. discriminate.
Qed.

(** C4, amended.  The KPI row and the source-market block leave the
    filtered collection exactly as it was.  The seasonality computation
    keeps the number and order of the records and every field a record
    had, and adds to each record the two fields [month] and [month_name]
    (the record's calendar month and its English name). *)
Theorem metrics_frame_effect (df : list ArrivalRecord) :
  (kpi_row df).2 = df
  ∧ (source_markets_tab df).2 = df
  ∧ (seasonality_tab df).2 = (peakAndLowSeason df).2
  ∧ length (peakAndLowSeason df).2 = length df
  ∧ Forall2
      (λ r r',
         date r' = date r
         ∧ total_arrivals r' = total_arrivals r
         ∧ international r' = international r
         ∧ regional r' = regional r
         ∧ zambia r' = zambia r
         ∧ zimbabwe r' = zimbabwe r
         ∧ botswana r' = botswana r
         ∧ south_africa r' = south_africa r
         ∧ europe r' = europe r
         ∧ north_america r' = north_america r
         ∧ asia r' = asia r
         ∧ extra r'
           = <["month_name"%string := CStr (strftime_B (date r))]>
               (<["month"%string := CInt (month (date r))]> (extra r))
         ∧ columns r'
           = columns r ∪ {["month"%string; "month_name"%string]})
      df (peakAndLowSeason df).2.
Proof.
  split; [reflexivity|]. split; [reflexivity|].
  rewrite peakAndLowSeason_frame, seasonality_tab_frame.
  split; [reflexivity|]. split; [apply length_fmap|].
  apply Forall2_fmap_r, Forall_Forall2_diag, Forall_forall.
  intros r _. rewrite <- columns_with_month_columns.
  repeat (split; [reflexivity|]). reflexivity.
Qed.

(** ** The [skipna] reductions *)

Lemma forallb_false_witness {A : Type} (f : A → bool) (l : list A) :
  forallb f l = false → ∃ x, x ∈ l ∧ f x = false.
Proof.
  induction l as [|x l IH]; simpl; [discriminate|].
  destruct (f x) eqn:E; simpl.
  - intros [y [Hy Hf]]%IH. exists y. split; [by right|done].
  - intros _. exists x. split; [by left|done].
Qed.

Lemma forallb_true_elem {A : Type} (f : A → bool) (l : list A) (x : A) :
  forallb f l = true → x ∈ l → f x = true.
Proof.
  intros H Hx. apply list_elem_of_In in Hx.
  by eapply forallb_forall in H.
Qed.

Lemma mean_like_series_mean (xs : list Z) : mean_like (series_mean xs).
Proof.
  destruct xs as [|x xs]; [exact I|].
  rewrite series_mean_cons. simpl. apply Qred_complete, Qred_correct.
Qed.

Section SkipNAFacts.
Variable le : npfloat → npfloat → bool.
Variable R : Q → Q → Prop.
Hypothesis le_R : ∀ a b, le (Finite a) (Finite b) = true ↔ R a b.
Hypothesis R_refl : ∀ a, R a a.
Hypothesis R_total : ∀ a b, R a b ∨ R b a.
Hypothesis R_trans : ∀ a b c, R a b → R b c → R a c.
Hypothesis R_antisym : ∀ a b, R a b → R b a → (a == b)%Q.

Lemma skipna_arg_reduce (s : list (string * npfloat)) :
  Forall (λ kv, mean_like kv.2) s →
  match skipna_arg le s with
  | None => skipna_reduce le s = NaN ∧ Forall (λ kv, kv.2 = NaN) s
  | Some k =>
      ∃ q, (k, Finite q) ∈ s
           ∧ skipna_reduce le s = Finite q
           ∧ Forall (λ kv, ∀ q', kv.2 = Finite q' → R q' q) s
  end.
Proof.
  induction s as [|[k v] rest IH]; intros Hml.
  { simpl. split; [done|constructor]. }
  apply Forall_cons in Hml as [Hv Hrest]. specialize (IH Hrest).
  simpl in Hv. cbn [skipna_arg skipna_reduce foldr].
  fold (skipna_reduce le rest).
  destruct v as [a| | |]; try done; cbn [is_nan snd].
  - destruct (forallb _ rest) eqn:Hb.
    + exists a. split; [left|]. split.
      * destruct (skipna_arg le rest) as [k'|].
        -- destruct IH as (q & Hin & -> & _).
           unfold skipna_pick. cbn [is_nan].
           destruct (le (Finite a) (Finite q)) eqn:E; [|done].
           apply le_R in E.
           pose proof (forallb_true_elem _ _ _ Hb Hin) as Hqa.
           cbn in Hqa. apply le_R in Hqa.
           pose proof (proj1 (Forall_forall _ _) Hrest _ Hin) as Hq.
           cbn in Hq. f_equal. rewrite <- Hq, <- Hv.
           by apply Qred_complete, R_antisym.
        -- destruct IH as [-> _]. reflexivity.
      * constructor.
        -- cbn. intros q' [= <-]. apply R_refl.
        -- apply Forall_forall. intros [k' w] Hin q' Hw.
           cbn in Hw. subst w.
           pose proof (forallb_true_elem _ _ _ Hb Hin) as Hqa.
           cbn in Hqa. by apply le_R.
    + apply forallb_false_witness in Hb as ([k1 w] & Hin & Hf).
      cbn in Hf. apply orb_false_iff in Hf as [Hnan Hle].
      pose proof (proj1 (Forall_forall _ _) Hrest _ Hin) as Hw.
      cbn in Hw. destruct w as [w| | |]; try done.
      assert (Haw : R a w).
      { destruct (R_total a w) as [?|Hwa]; [done|].
        apply le_R in Hwa. congruence. }
      destruct (skipna_arg le rest) as [k'|].
      * destruct IH as (q & Hq & Hred & Hall).
        exists q. split; [by right|].
        assert (Haq : R a q).
        { eapply R_trans; [exact Haw|].
          by apply (proj1 (Forall_forall _ _) Hall _ Hin). }
        split.
        -- rewrite Hred. unfold skipna_pick. cbn [is_nan].
           by rewrite (proj2 (le_R a q) Haq).
        -- constructor; [|done]. cbn. by intros q' [= <-].
      * destruct IH as [_ Hall].
        by apply (proj1 (Forall_forall _ _) Hall) in Hin.
  - unfold skipna_pick. cbn [is_nan].
    destruct (skipna_arg le rest) as [k'|].
    + destruct IH as (q & Hq & Hred & Hall).
      exists q. split; [by right|]. split; [done|].
      constructor; [|done]. cbn. discriminate.
    + destruct IH as [Hred Hall]. split; [done|]. by constructor.
Qed.
End SkipNAFacts.

Lemma idxmax_series_max (s : list (string * npfloat)) :
  Forall (λ kv, mean_like kv.2) s →
  match idxmax s with
  | None => series_max s = NaN ∧ Forall (λ kv, kv.2 = NaN) s
  | Some k =>
      ∃ q, (k, Finite q) ∈ s
           ∧ series_max s = Finite q
           ∧ Forall (λ kv, ∀ q', kv.2 = Finite q' → (q' <= q)%Q) s
  end.
Proof.
  apply (skipna_arg_reduce np_leb Qle).
  - intros a b. apply Qle_bool_iff.
  - apply Qle_refl.
  - intros a b. destruct (Qlt_le_dec a b) as [H|H]; [left|by right].
    by apply Qlt_le_weak.
  - apply Qle_trans.
  - apply Qle_antisym.
Qed.

Lemma idxmin_series_min (s : list (string * npfloat)) :
  Forall (λ kv, mean_like kv.2) s →
  match idxmin s with
  | None => series_min s = NaN ∧ Forall (λ kv, kv.2 = NaN) s
  | Some k =>
      ∃ q, (k, Finite q) ∈ s
           ∧ series_min s = Finite q
           ∧ Forall (λ kv, ∀ q', kv.2 = Finite q' → (q <= q')%Q) s
  end.
Proof.
  apply (skipna_arg_reduce (λ w v, np_leb v w) (λ a b, (b <= a)%Q)).
  - intros a b. apply Qle_bool_iff.
  - apply Qle_refl.
  - intros a b. destruct (Qlt_le_dec a b) as [H|H]; [right|by left].
    by apply Qlt_le_weak.
  - intros a b c H1 H2. by eapply Qle_trans.
  - intros a b H1 H2. by apply Qle_antisym.
Qed.

(** ** Seasonality *)

Lemma filter_month_name (df : list ArrivalRecord) (label : string) :
  map total_arrivals
      (filter (λ r, extra r !! "month_name"%string = Some (CStr label))
              (map with_month_columns df))
    = map total_arrivals
          (filter (λ r, strftime_B (date r) = label) df).
Proof.
  induction df as [|r df IH]; [done|].
  cbn [map].
  assert (Hcell : extra (with_month_columns r) !! "month_name"%string
                  = Some (CStr (strftime_B (date r)))).
  { unfold with_month_columns, set_column. cbn [extra date].
    apply lookup_insert_eq. }
  destruct (decide (strftime_B (date r) = label)) as [Heq|Hne].
  - rewrite !filter_cons_True; [|done|by rewrite Hcell, Heq].
    cbn [map]. by rewrite IH.
  - rewrite !filter_cons_False; [done|done|].
    rewrite Hcell. intros [= ?]. done.
Qed.

Lemma groupby_month_name (df : list ArrivalRecord) (label : string) :
  groupby_mean "month_name" (map with_month_columns df) label
    = series_mean
        (map total_arrivals
             (filter (λ r, strftime_B (date r) = label) df)).
Proof. unfold groupby_mean. by rewrite filter_month_name. Qed.

Lemma seasonality_tab_means (df : list ArrivalRecord) :
  (seasonality_tab df).1
    = map (λ name,
             (name,
              series_mean
                (map total_arrivals
                     (filter (λ r, strftime_B (date r) = name) df))))
          month_names.
Proof.
  rewrite seasonality_tab_unfold. cbn [fst]. unfold reindexed_means.
  apply map_ext. intros name. by rewrite groupby_month_name.
Qed.

Lemma peakAndLowSeason_result (df : list ArrivalRecord) :
  (peakAndLowSeason df).1
    = let avg := (seasonality_tab df).1 in
      mkSeason avg (idxmax avg) (idxmin avg)
               (series_max avg) (series_min avg)
               (np_truediv (series_max avg) (series_min avg)).
Proof.
  unfold peakAndLowSeason, mbind, page_bind, mret, page_ret.
  by destruct (seasonality_tab df) as [avg df'].
Qed.

Lemma strftime_B_month_name (d : Date) :
  1 ≤ month d ≤ 12 → strftime_B d ∈ month_names.
Proof.
  intros Hm. unfold strftime_B.
  destruct (month_names !! Z.to_nat (month d - 1)) as [name|] eqn:E.
  - simpl. by eapply list_elem_of_lookup_2.
  - apply lookup_ge_None in E. simpl in E. lia.
Qed.

Lemma seasonality_means_like (df : list ArrivalRecord) :
  Forall (λ kv, mean_like kv.2) (seasonality_tab df).1.
Proof.
  rewrite seasonality_tab_means. apply Forall_forall.
  intros kv [name [<- _]]%list_elem_of_In%in_map_iff.
  apply mean_like_series_mean.
Qed.

Lemma seasonality_some_month (r : ArrivalRecord)
    (df : list ArrivalRecord) :
  1 ≤ month (date r) ≤ 12 →
  ∃ q, (strftime_B (date r), Finite q) ∈ (seasonality_tab (r :: df)).1.
Proof.
  intros Hm. rewrite seasonality_tab_means.
  eexists. apply list_elem_of_In, in_map_iff.
  exists (strftime_B (date r)).
  split; [|by apply list_elem_of_In, strftime_B_month_name].
  f_equal. rewrite filter_cons_True by done.
  cbn [map]. rewrite series_mean_cons. reflexivity.
Qed.

Example peakAndLowSeason_three_months :
  let r := (peakAndLowSeason three_months).1 in
  peak_month r = Some "October"%string
  ∧ low_month r = Some "September"%string
  ∧ peak_mean r = Finite 21000
  ∧ low_mean r = Finite 18000
  ∧ seasonality_index r = Finite (7 # 6).
Proof. vm_compute. repeat split. Qed.

(** ** The generator *)

Lemma zip_with_map_same {A B C D : Type} (g : B → C → D)
    (f1 : A → B) (f2 : A → C) (l : list A) :
  zip_with g (map f1 l) (map f2 l) = map (λ x, g (f1 x) (f2 x)) l.
Proof. induction l as [|x l IH]; [done|]. cbn. by rewrite IH. Qed.

Lemma Forall_zip_with_r {A B C : Type} (P : C → Prop) (f : A → B → C)
    (l : list A) (k : list B) :
  Forall (λ b, ∀ a, P (f a b)) k → Forall P (zip_with f l k).
Proof.
  intros Hk. revert l.
  induction Hk as [|b k Hb Hk IH]; intros [|a l]; cbn; constructor; auto.
Qed.

Lemma dates_by_index :
  dates = map (λ i, month_end (24228 + Z.of_nat i)) (seq 0 70).
Proof. vm_compute. reflexivity. Qed.

Lemma dates_length : length dates = 70%nat.
Proof. vm_compute. reflexivity. Qed.

Lemma covid_mask_by_index :
  map (λ d, date_leb covid_start d && date_leb d covid_end) dates
    = map in_disruption_window (seq 0 70).
Proof. vm_compute. reflexivity. Qed.

Lemma covid_impact_by_index :
  covid_impact = map covid_multiplier (seq 0 70).
Proof.
  unfold covid_impact.
  change (map (λ d, if date_leb covid_start d && date_leb d covid_end
                    then 0.3%R else 1%R) dates)
    with (map (λ d, (λ b : bool, if b then 0.3%R else 1%R)
                      (date_leb covid_start d && date_leb d covid_end))
              dates).
  rewrite <- (map_map (λ d, date_leb covid_start d && date_leb d covid_end)
                      (λ b : bool, if b then 0.3%R else 1%R)).
  rewrite covid_mask_by_index, map_map. reflexivity.
Qed.

Lemma month_number_month_end (k : Z) : month_number (month_end k) = k.
Proof.
  unfold month_number, month_end. cbn [year month].
  pose proof (Z.div_mod k 12). lia.
Qed.

Lemma arrivals_by_index (noise : nat → R) :
  arrivals noise = map (arrivals_formula noise 70) (seq 0 70).
Proof.
  unfold arrivals, trend, seasonal, noise_array, linspace.
  rewrite dates_length, covid_impact_by_index, !map_map.
  rewrite !zip_with_map_same, map_map.
  apply map_ext. intros i.
  unfold arrivals_formula, spec_trend, spec_seasonal, lerp, base_arrivals.
  replace (INR (70 - 1)) with 69%R by (simpl; lra).
  f_equal. f_equal. f_equal. f_equal.
  - f_equal. field.
  - f_equal. f_equal. field.
Qed.

Lemma load_sample_data_by_index (noise : nat → R) :
  load_sample_data noise
    = map (λ i, arrival_row (month_end (24228 + Z.of_nat i))
                            (arrivals_formula noise 70 i))
          (seq 0 70).
Proof.
  unfold load_sample_data.
  rewrite arrivals_by_index, dates_by_index.
  apply zip_with_map_same.
Qed.

Lemma arrivals_formula_ge_1000 (noise : nat → R) (n i : nat) :
  (1000 <= arrivals_formula noise n i)%R.
Proof. unfold arrivals_formula. apply Rmax_r. Qed.

Lemma astype_int_nonneg (x : R) : (0 <= x)%R → astype_int x = Zfloor x.
Proof. intros Hx. unfold astype_int. by destruct (Rle_dec 0 x). Qed.

Lemma astype_int_ge (z : Z) (x : R) :
  0 ≤ z → (IZR z <= x)%R → z ≤ astype_int x.
Proof.
  intros Hz Hx. rewrite astype_int_nonneg.
  - by apply Zfloor_lub.
  - apply IZR_le in Hz. lra.
Qed.

Lemma astype_int_split (a : R) :
  (0 <= a)%R →
  astype_int a - 1 ≤ astype_int (a * 0.65) + astype_int (a * 0.35)
    ≤ astype_int a.
Proof.
  intros Ha. rewrite !astype_int_nonneg by lra.
  pose proof (Zfloor_bound a) as Ba.
  pose proof (Zfloor_bound (a * 0.65)) as Bx.
  pose proof (Zfloor_bound (a * 0.35)) as By.
  split.
  - apply Z.lt_succ_r, lt_IZR. unfold Z.succ.
    rewrite !plus_IZR, minus_IZR. lra.
  - apply Z.lt_succ_r, lt_IZR. unfold Z.succ.
    rewrite !plus_IZR. lra.
Qed.

Lemma load_sample_data_lookup (noise : nat → R) (i : nat)
    (r : ArrivalRecord) :
  load_sample_data noise !! i = Some r →
  (i < 70)%nat
  ∧ r = arrival_row (month_end (24228 + Z.of_nat i))
                    (arrivals_formula noise 70 i).
Proof.
  rewrite load_sample_data_by_index. intros Hr.
  assert (Hi : (i < 70)%nat).
  { apply lookup_lt_Some in Hr. by rewrite length_map, length_seq in Hr. }
  split; [done|].
  pose proof (lookup_seq_lt 0 70 i Hi) as Hseq.
  apply (f_equal (fmap (λ i, arrival_row (month_end (24228 + Z.of_nat i))
                                         (arrivals_formula noise 70 i))))
    in Hseq.
  rewrite <- list_lookup_fmap in Hseq.
  change (fmap ?f ?l) with (map f l) in Hseq at 1.
  rewrite Hr in Hseq. by injection Hseq.
Qed.

Lemma Rround_seed42_head :
  Rround (15000 + spec_trend 70 0 + spec_seasonal 70 0
          + noise_seed42_head 0) = 15497.
Proof.
  unfold spec_trend, spec_seasonal, lerp, noise_seed42_head.
  replace (2 * PI * 5 * INR 0 / INR (70 - 1))%R with 0%R
    by (simpl; field).
  rewrite sin_0.
  replace (15000 + (0 + (5000 - 0) * (INR 0 / INR (70 - 1))) + 5000 * 0
           + 4967141530112327 / 10000000000000)%R
    with (154967141530112327 / 10000000000000)%R by (simpl; field).
  unfold Rround.
  rewrite (Zfloor_eq 15496) by lra.
  destruct (Rlt_dec _ _) as [H|_]; [lra|].
  destruct (Rlt_dec _ _) as [_|H]; [reflexivity|lra].
Qed.

Lemma arrivals_formula_seed42_head :
  arrivals_formula noise_seed42_head 70 0
    = (154967141530112327 / 10000000000000)%R.
Proof.
  unfold arrivals_formula, spec_trend, spec_seasonal, lerp,
    noise_seed42_head, covid_multiplier.
  replace (2 * PI * 5 * INR 0 / INR (70 - 1))%R with 0%R
    by (simpl; field).
  rewrite sin_0. change (in_disruption_window 0) with false.
  cbv iota. rewrite Rmax_left; [simpl; field|simpl; lra].
Qed.

(** C2 as stated fails at the first month.  With the first draw of
    seed 42 the specification's formula gives 15497, while lines 106-107
    give 15496.714.. and the record's [total_arrivals] is 15496: the code
    does not round before it applies the multiplier, and it truncates
    after the clamp. *)
Lemma arrivals_not_rounded :
  spec_arrivals noise_seed42_head 70 0 = 15497%R
  ∧ arrivals_formula noise_seed42_head 70 0 ≠ 15497%R
  ∧ (total_arrivals <$> load_sample_data noise_seed42_head !! 0%nat)
    = Some 15496
  ∧ IZR 15496 ≠ spec_arrivals noise_seed42_head 70 0.
Proof.
  assert (Hspec : spec_arrivals noise_seed42_head 70 0 = 15497%R).
  { unfold spec_arrivals. rewrite Rround_seed42_head.
    unfold covid_multiplier. change (in_disruption_window 0) with false.
    cbv iota. rewrite Rmax_right; lra. }
  split; [exact Hspec|]. split; [|split].
  - rewrite arrivals_formula_seed42_head. lra.
  - rewrite load_sample_data_by_index. cbn [seq map lookup list_lookup fmap
      option_fmap option_map arrival_row total_arrivals].
    rewrite arrivals_formula_seed42_head. f_equal.
    rewrite astype_int_nonneg by lra. apply Zfloor_eq. lra.
  - rewrite Hspec. lra.
Qed.

(** C2, amended.  The series has 70 months.  For every month index [i],
    the generated [total_arrivals] is the integer part of
    max(1000, (15000 + trend(i) + seasonal(i) + noise(i))
              * covid_multiplier(i)),
    with trend(i) = lerp(0, 5000, i/(n-1)),
    seasonal(i) = 5000 * sin(2*pi*5*i/(n-1)), and covid_multiplier(i) = 0.3
    exactly when the record's month lies in 2020-03 .. 2021-12 and 1.0
    otherwise; no rounding takes place before the multiplier.  Every
    record's [total_arrivals] is at least 1000. *)
Theorem arrivals_pointwise (noise : nat → R) (i : nat)
    (r : ArrivalRecord) :
  load_sample_data noise !! i = Some r →
  length (load_sample_data noise) = length dates
  ∧ length dates = 70%nat
  ∧ total_arrivals r
    = astype_int
        (Rmax ((15000 + lerp 0 5000 (INR i / INR (length dates - 1))
                + 5000 * sin (2 * PI * 5 * INR i
                              / INR (length dates - 1))
                + noise i)
               * covid_multiplier i) 1000)
  ∧ (covid_multiplier i = 0.3%R ↔
     month_number (mkDate 2020 3 1) ≤ month_number (date r)
       ≤ month_number (mkDate 2021 12 31))
  ∧ (covid_multiplier i = 1%R ∨ covid_multiplier i = 0.3%R)
  ∧ 1000 ≤ total_arrivals r.
Proof.
  intros Hr. apply load_sample_data_lookup in Hr as [Hi ->].
  rewrite dates_length. cbn [arrival_row total_arrivals date].
  split. { by rewrite load_sample_data_by_index, length_map, length_seq. }
  split; [done|]. split; [reflexivity|]. split; [|split].
  - rewrite month_number_month_end. unfold month_number. cbn [year month].
    unfold covid_multiplier, in_disruption_window.
    case_bool_decide as Hw; split; intros H; try lia; try lra; done.
  - unfold covid_multiplier. destruct (in_disruption_window i); auto.
  - apply astype_int_ge; [lia|]. apply arrivals_formula_ge_1000.
Qed.

Lemma arrivals_pointwise_witness :
  ∃ r, load_sample_data noise_seed42_head !! 0%nat = Some r
       ∧ 1000 ≤ total_arrivals r.
Proof.
  destruct (lookup_lt_is_Some_2 (load_sample_data noise_seed42_head) 0)
    as [r Hr].
  { rewrite load_sample_data_by_index, length_map, length_seq. lia. }
  exists r. split; [exact Hr|].
  exact (proj2 (proj2 (proj2 (proj2 (proj2
    (arrivals_pointwise noise_seed42_head 0 r Hr)))))).
Defined.

(** C3.  For every generated record, [international + regional] equals
    [total_arrivals] to within 1, the three columns being the integer
    parts of 0.65 * a, 0.35 * a and a for the same arrivals value a, each
    truncated on its own. *)
Theorem international_regional_within_one (noise : nat → R) :
  length (load_sample_data noise) = 70%nat
  ∧ Forall (λ r, ∃ a : R,
               total_arrivals r = astype_int a
               ∧ international r = astype_int (a * 0.65)
               ∧ regional r = astype_int (a * 0.35)
               ∧ -1 ≤ international r + regional r - total_arrivals r ≤ 1)
           (load_sample_data noise).
Proof.
  rewrite load_sample_data_by_index. split.
  { by rewrite length_map, length_seq. }
  apply Forall_forall.
  intros r [i [<- _]]%list_elem_of_In%in_map_iff.
  exists (arrivals_formula noise 70 i).
  cbn [arrival_row total_arrivals international regional].
  repeat (split; [reflexivity|]).
  pose proof (arrivals_formula_ge_1000 noise 70 i) as Hge.
  pose proof (astype_int_split (arrivals_formula noise 70 i)) as Hs.
  specialize (Hs ltac:(lra)). lia.
Qed.

(** * Further properties of the page *)

(** ** Filters compose *)

Lemma filter_none {A : Type} (P : A → Prop) `{!∀ x, Decision (P x)}
    (l : list A) :
  (∀ x, x ∈ l → ¬ P x) → filter P l = [].
Proof.
  induction l as [|x l IH]; intros Hno; [done|].
  rewrite filter_cons_False by (apply Hno; left).
  apply IH. intros y Hy. apply Hno. by right.
Qed.

Lemma filter_map_comm {A B : Type} (f : A → B) (P : B → Prop)
    `{!∀ y, Decision (P y)} (l : list A) :
  filter P (map f l) = map f (filter (λ x, P (f x)) l).
Proof.
  induction l as [|x l IH]; [done|]. cbn [map].
  destruct (decide (P (f x))).
  - rewrite !filter_cons_True by done. cbn [map]. by rewrite IH.
  - by rewrite !filter_cons_False.
Qed.

(** Two date filters in a row commute; the same filter twice is the
    filter once; a filter never adds rows; and a range inside an earlier
    range gives what it gives on the unfiltered frame. *)
Theorem filterByDate_compose {Row : Type} (date_of : Row → Date)
    (df : list Row) (s1 e1 s2 e2 : Date) :
  filterByDate date_of (filterByDate date_of df s1 e1) s2 e2
    = filterByDate date_of (filterByDate date_of df s2 e2) s1 e1
  ∧ filterByDate date_of (filterByDate date_of df s1 e1) s1 e1
    = filterByDate date_of df s1 e1
  ∧ (length (filterByDate date_of df s1 e1) ≤ length df)%nat
  ∧ (date_le s1 s2 → date_le e2 e1 →
     filterByDate date_of (filterByDate date_of df s1 e1) s2 e2
       = filterByDate date_of df s2 e2).
Proof.
  unfold filterByDate. rewrite !list_filter_filter.
  split; [|split; [|split]].
  - apply list_filter_iff. tauto.
  - apply list_filter_iff. tauto.
  - apply length_filter.
  - intros Hs He. apply list_filter_iff. intros r.
    rewrite !mask_true. split; [tauto|].
    intros [H1 H2]. repeat split; try done.
    + by eapply date_le_trans.
    + by eapply date_le_trans.
Qed.

Lemma filterByDate_compose_witness :
  date_le (mkDate 2024 8 1) (mkDate 2024 9 1)
  ∧ date_le (mkDate 2024 10 31) (mkDate 2024 12 31)
  ∧ filterByDate date
      (filterByDate date three_months (mkDate 2024 8 1) (mkDate 2024 12 31))
      (mkDate 2024 9 1) (mkDate 2024 10 31)
    = filterByDate date three_months (mkDate 2024 9 1) (mkDate 2024 10 31).
Proof.
  split; [reflexivity|]. split; [reflexivity|].
  exact (proj2 (proj2 (proj2
    (filterByDate_compose date three_months (mkDate 2024 8 1)
       (mkDate 2024 12 31) (mkDate 2024 9 1) (mkDate 2024 10 31))))
    eq_refl eq_refl).
Defined.

(** ** The dates of the generated frame *)

Lemma load_sample_data_dates (noise : nat → R) :
  map date (load_sample_data noise) = dates.
Proof.
  rewrite load_sample_data_by_index, dates_by_index, map_map.
  reflexivity.
Qed.

Lemma dates_sorted : StronglySorted date_lt dates.
Proof. refine (bool_decide_unpack _ _). vm_compute. exact I. Qed.

Lemma dates_month_ends :
  Forall (λ d, day d = days_in_month (year d) (month d)
               ∧ 1 ≤ month d ≤ 12 ∧ 2019 ≤ year d ≤ 2024) dates.
Proof. refine (bool_decide_unpack _ _). vm_compute. exact I. Qed.

Lemma StronglySorted_map_inv {A B : Type} (f : A → B) (R : relation B)
    (l : list A) :
  StronglySorted R (map f l) → StronglySorted (λ a b, R (f a) (f b)) l.
Proof.
  induction l as [|x l IH]; cbn [map]; intros H; [constructor|].
  apply StronglySorted_cons in H as [Hx Hl].
  constructor; [by apply IH|].
  apply Forall_forall. intros y Hy.
  apply (proj1 (Forall_forall _ _) Hx).
  by apply list_elem_of_In, in_map, list_elem_of_In.
Qed.

Lemma Forall_map_inv {A B : Type} (f : A → B) (P : B → Prop)
    (l : list A) :
  Forall P (map f l) → Forall (λ a, P (f a)) l.
Proof.
  intros H. apply Forall_forall. intros x Hx.
  apply (proj1 (Forall_forall _ _) H).
  by apply list_elem_of_In, in_map, list_elem_of_In.
Qed.

(** Whatever the noise, the generated frame holds the 70 month ends from
    2019-01-31 to 2024-10-31, one per row, in strictly increasing order;
    every date is the last day of its month. *)
Theorem load_sample_data_month_ends (noise : nat → R) :
  map date (load_sample_data noise) = dates
  ∧ chronological date (load_sample_data noise)
  ∧ Forall (λ r, day (date r)
                 = days_in_month (year (date r)) (month (date r))
                 ∧ 1 ≤ month (date r) ≤ 12)
           (load_sample_data noise)
  ∧ date_min (map date (load_sample_data noise))
    = Some (mkDate 2019 1 31)
  ∧ date_max (map date (load_sample_data noise))
    = Some (mkDate 2024 10 31).
Proof.
  pose proof (load_sample_data_dates noise) as Hd.
  split; [exact Hd|]. split; [|split; [|split]].
  - apply StronglySorted_map_inv. rewrite Hd. apply dates_sorted.
  - apply (Forall_map_inv date
      (λ d, day d = days_in_month (year d) (month d)
            ∧ 1 ≤ month d ≤ 12)).
    rewrite Hd. eapply Forall_impl; [apply dates_month_ends|].
    cbn. tauto.
  - rewrite Hd. vm_compute. reflexivity.
  - rewrite Hd. vm_compute. reflexivity.
Qed.

Lemma filterByDate_within_month (noise : nat → R) (s e : Date) :
  year s = year e → month s = month e →
  day e < days_in_month (year e) (month e) →
  filterByDate date (load_sample_data noise) s e = [].
Proof.
  intros Hy Hm Hd. apply filter_none. intros r Hr.
  rewrite mask_true. unfold date_le. rewrite !date_leb_spec.
  assert (Hend : day (date r)
                 = days_in_month (year (date r)) (month (date r))).
  { pose proof (dates_month_ends) as Hall.
    rewrite <- (load_sample_data_dates noise) in Hall.
    apply Forall_map_inv in Hall.
    by apply (proj1 (Forall_forall _ _) Hall) in Hr as [? _]. }
  intros [H1 H2].
  assert (year (date r) = year e ∧ month (date r) = month e) as [E1 E2]
    by lia.
  rewrite E1, E2 in Hend. lia.
Qed.

(** A range that lies within one month and stops before its last day
    selects no row of the generated frame.  The "Avg Monthly Arrivals"
    card is then NaN, and the "Peak Month" card of the first tab raises
    [ValueError]. *)
Theorem filter_within_month_empty (noise : nat → R) (s e : Date) :
  year s = year e → month s = month e →
  day e < days_in_month (year e) (month e) →
  filter_block date [s; e] (load_sample_data noise) = []
  ∧ totalAndAverage (filter_block date [s; e] (load_sample_data noise))
    = (0, NaN)
  ∧ peak_month_date (filter_block date [s; e] (load_sample_data noise))
    = inl ValueError.
Proof.
  intros Hy Hm Hd. cbn [filter_block].
  rewrite (filterByDate_within_month noise s e Hy Hm Hd).
  repeat split.
Qed.

Lemma filter_within_month_empty_witness :
  filter_block date [mkDate 2024 10 1; mkDate 2024 10 15]
    (load_sample_data noise_seed42_head) = [].
Proof.
  exact (proj1 (filter_within_month_empty noise_seed42_head
                  (mkDate 2024 10 1) (mkDate 2024 10 15)
                  eq_refl eq_refl eq_refl)).
Defined.

(** ** Year-over-year growth *)

Lemma Qred_zero (q : Q) : (q == 0)%Q → Qred q = 0%Q.
Proof. intros H. by rewrite (Qred_complete q 0 H). Qed.

Lemma yoyGrowth_short (df : list ArrivalRecord) :
  (length df < 24)%nat → yoyGrowth df = 0%Q.
Proof.
  intros Hlen. unfold yoyGrowth.
  case_bool_decide as H12; [|done].
  rewrite (bool_decide_eq_false_2 (24 ≤ length df)%nat) by lia.
  case_bool_decide as Hpos; [|done].
  apply Qred_zero. rewrite Z.sub_diag. unfold Qdiv. ring.
Qed.

Lemma growth_stats_yoy_short (df : list ArrivalRecord) :
  (length df < 24)%nat → growth_stats_yoy df = None.
Proof.
  intros Hlen. unfold growth_stats_yoy.
  rewrite (bool_decide_eq_false_2 (24 ≤ length df)%nat) by lia.
  by rewrite bool_decide_eq_false_2 by lia.
Qed.

Lemma tail_rows_app {A : Type} (k : nat) (pre recent : list A) :
  length recent = k → tail_rows k (pre ++ recent) = recent.
Proof.
  intros <-. unfold tail_rows. rewrite length_app.
  apply drop_app_length'. lia.
Qed.

Lemma iloc_m24_m12_app {A : Type} (pre prev recent : list A) :
  length prev = 12%nat → length recent = 12%nat →
  iloc_m24_m12 (pre ++ prev ++ recent) = prev.
Proof.
  intros Hp Hr. unfold iloc_m24_m12. rewrite !length_app, Hp, Hr.
  rewrite drop_app_length' by lia.
  apply take_app_length'. lia.
Qed.

(** With fewer than 24 records the KPI's growth is exactly 0: below 12
    by the guard, from 12 to 23 because the previous year is set to the
    recent one. *)
Theorem yoyGrowth_under_two_years (df : list ArrivalRecord) :
  (length df < 24)%nat → yoyGrowth df = 0%Q.
Proof.
  intros Hlen. unfold yoyGrowth.
  destruct (decide (12 ≤ length df)%nat) as [H12|H12].
  - rewrite (bool_decide_eq_true_2 _ H12).
    rewrite (bool_decide_eq_false_2 (24 ≤ length df)%nat) by lia.
    case_bool_decide as Hpos; [|done].
    apply Qred_zero. rewrite Z.sub_diag. unfold Qdiv. ring.
  - by rewrite (bool_decide_eq_false_2 _ H12).
Qed.

Lemma yoyGrowth_under_two_years_witness :
  (length three_months < 24)%nat ∧ yoyGrowth three_months = 0%Q.
Proof.
  split; [simpl; lia|].
  apply (yoyGrowth_under_two_years three_months). simpl. lia.
Defined.

(** With at least 24 records the recent year is the last twelve rows and
    the previous year the twelve rows before them, whatever precedes; for
    a positive previous year the growth is
    (recent - previous) / previous * 100, and for a previous year that is
    not positive it is 0. *)
Theorem yoyGrowth_last_two_years (pre prev recent : list ArrivalRecord) :
  length prev = 12%nat → length recent = 12%nat →
  yoyGrowth (pre ++ prev ++ recent)
    = if bool_decide (0 < sumZ (map total_arrivals prev))
      then Qred (inject_Z (sumZ (map total_arrivals recent)
                           - sumZ (map total_arrivals prev))
                 / inject_Z (sumZ (map total_arrivals prev)) * 100)
      else 0%Q.
Proof.
  intros Hp Hr. unfold yoyGrowth.
  rewrite (bool_decide_eq_true_2 (12 ≤ _)%nat)
    by (rewrite !length_app; lia).
  rewrite (bool_decide_eq_true_2 (24 ≤ _)%nat)
    by (rewrite !length_app; lia).
  rewrite iloc_m24_m12_app by done.
  rewrite (app_assoc pre prev recent), tail_rows_app by done.
  reflexivity.
Qed.

Lemma yoyGrowth_last_two_years_witness :
  yoyGrowth two_flat_years = 20%Q.
Proof.
  change two_flat_years with
    ([] ++ map (λ i, sample_row (month_end (24264 + Z.of_nat i)) 10000)
               (seq 0 12)
        ++ map (λ i, sample_row (month_end (24276 + Z.of_nat i)) 12000)
               (seq 0 12)).
  rewrite yoyGrowth_last_two_years by reflexivity.
  vm_compute. reflexivity.
Defined.



(** ** The default range *)

Lemma default_range_rows (noise : nat → R) :
  filterByDate date (load_sample_data noise)
    (mkDate 2023 11 1) (mkDate 2024 10 31)
  = map (λ i, arrival_row (month_end (24228 + Z.of_nat i))
                          (arrivals_formula noise 70 i))
        (seq 58 12).
Proof.
  rewrite load_sample_data_by_index. unfold filterByDate.
  rewrite filter_map_comm.
  apply (f_equal (map _)). reflexivity.
Qed.

(** Until the user picks a range the sidebar hands back
    (2023-11-01, 2024-10-31).  Whatever the noise, the filtered frame is
    then the last twelve months, so the KPI's growth is 0 and the first
    tab shows no growth figure. *)
Theorem default_range_is_last_year (noise : nat → R) :
  default_date_range (load_sample_data noise)
    = Some [mkDate 2023 11 1; mkDate 2024 10 31]
  ∧ map date (filter_block date [mkDate 2023 11 1; mkDate 2024 10 31]
                (load_sample_data noise))
    = drop 58 dates
  ∧ length (filter_block date [mkDate 2023 11 1; mkDate 2024 10 31]
              (load_sample_data noise)) = 12%nat
  ∧ yoyGrowth (filter_block date [mkDate 2023 11 1; mkDate 2024 10 31]
                 (load_sample_data noise)) = 0%Q
  ∧ growth_stats_yoy
      (filter_block date [mkDate 2023 11 1; mkDate 2024 10 31]
         (load_sample_data noise)) = None.
Proof.
  cbn [filter_block].
  assert (Hlen : length (filterByDate date (load_sample_data noise)
                   (mkDate 2023 11 1) (mkDate 2024 10 31)) = 12%nat).
  { by rewrite default_range_rows, length_map, length_seq. }
  split; [|split; [|split; [|split]]].
  - unfold default_date_range. rewrite load_sample_data_dates.
    vm_compute. reflexivity.
  - rewrite default_range_rows, map_map. cbn [arrival_row date].
    vm_compute. reflexivity.
  - exact Hlen.
  - apply yoyGrowth_short. lia.
  - apply growth_stats_yoy_short. lia.
Qed.

(** ** The peak month of the first tab *)

Lemma int_idxmax_spec (df : list ArrivalRecord) :
  match int_idxmax df with
  | None => df = []
  | Some r =>
      ∃ pre post, df = pre ++ r :: post
        ∧ Forall (λ r', total_arrivals r' < total_arrivals r) pre
        ∧ Forall (λ r', total_arrivals r' ≤ total_arrivals r) post
  end.
Proof.
  induction df as [|x df IH]; [done|]. cbn [int_idxmax].
  destruct (int_idxmax df) as [r'|].
  - destruct IH as (pre & post & -> & Hpre & Hpost).
    destruct (Z.leb_spec (total_arrivals r') (total_arrivals x)).
    + exists [], (pre ++ r' :: post). split; [done|].
      split; [constructor|]. apply Forall_app. split.
      * eapply Forall_impl; [exact Hpre|]. cbn. lia.
      * constructor; [done|].
        eapply Forall_impl; [exact Hpost|]. cbn. lia.
    + exists (x :: pre), post. split; [done|].
      split; [by constructor|done].
  - subst df. exists [], []. repeat split; constructor.
Qed.

(** On a frame without rows the "Peak Month" card raises [ValueError].
    On any other frame it shows the date of a row whose [total_arrivals]
    is the largest of the frame, and of the rows that reach that value
    the first one. *)
Theorem peak_month_date_first_max (df : list ArrivalRecord) :
  (peak_month_date df = inl ValueError ↔ df = [])
  ∧ ∀ r df', 
      ∃ peak pre post,
        peak_month_date (r :: df') = inr (date peak)
        ∧ r :: df' = pre ++ peak :: post
        ∧ Forall (λ r', total_arrivals r' < total_arrivals peak) pre
        ∧ Forall (λ r', total_arrivals r' ≤ total_arrivals peak) post.
Proof.
  split.
  - unfold peak_month_date.
    pose proof (int_idxmax_spec df) as H.
    destruct (int_idxmax df) as [r|]; [|done].
    split; [done|]. intros ->.
    destruct H as (pre & post & H & _). by destruct pre.
  - intros r df'. unfold peak_month_date.
    pose proof (int_idxmax_spec (r :: df')) as H.
    destruct (int_idxmax (r :: df')) as [peak|]; [|done].
    destruct H as (pre & post & H & Hpre & Hpost).
    by exists peak, pre, post.
Qed.

Example peak_month_date_three_months :
  peak_month_date three_months = inr (mkDate 2024 10 31).
Proof. reflexivity. Qed.

(** ** The source markets *)

Lemma astype_int_split7 (a : R) :
  (0 <= a)%R →
  astype_int a - 6
    ≤ astype_int (a * 0.15) + astype_int (a * 0.12)
      + astype_int (a * 0.08) + astype_int (a * 0.25)
      + astype_int (a * 0.20) + astype_int (a * 0.12)
      + astype_int (a * 0.08)
    ≤ astype_int a.
Proof.
  intros Ha. rewrite !astype_int_nonneg by lra.
  pose proof (Zfloor_bound a).
  pose proof (Zfloor_bound (a * 0.15)).
  pose proof (Zfloor_bound (a * 0.12)).
  pose proof (Zfloor_bound (a * 0.08)).
  pose proof (Zfloor_bound (a * 0.25)).
  pose proof (Zfloor_bound (a * 0.20)).
  split.
  - apply Z.lt_succ_r, lt_IZR. unfold Z.succ.
    rewrite !plus_IZR, minus_IZR. lra.
  - apply Z.lt_succ_r, lt_IZR. unfold Z.succ.
    rewrite !plus_IZR. lra.
Qed.

Lemma load_sample_data_markets (noise : nat → R) :
  Forall (λ r, total_arrivals r - 6 ≤ markets_of r ≤ total_arrivals r)
         (load_sample_data noise).
Proof.
  rewrite load_sample_data_by_index. apply Forall_forall.
  intros r [i [<- _]]%list_elem_of_In%in_map_iff.
  unfold markets_of.
  cbn [arrival_row total_arrivals zambia zimbabwe botswana south_africa
       europe north_america asia].
  pose proof (arrivals_formula_ge_1000 noise 70 i) as Hge.
  pose proof (astype_int_split7 (arrivals_formula noise 70 i)) as Hs.
  specialize (Hs ltac:(lra)). lia.
Qed.

(** In every generated record the seven source-market counts add up to
    [total_arrivals] less a truncation loss of at most 6. *)
Theorem markets_sum_within_six (noise : nat → R) :
  Forall (λ r, total_arrivals r - 6
               ≤ zambia r + zimbabwe r + botswana r + south_africa r
                 + europe r + north_america r + asia r
               ≤ total_arrivals r)
         (load_sample_data noise).
Proof.
  rewrite load_sample_data_by_index. apply Forall_forall.
  intros r [i [<- _]]%list_elem_of_In%in_map_iff.
  cbn [arrival_row total_arrivals zambia zimbabwe botswana south_africa
       europe north_america asia].
  pose proof (arrivals_formula_ge_1000 noise 70 i) as Hge.
  pose proof (astype_int_split7 (arrivals_formula noise 70 i)) as Hs.
  specialize (Hs ltac:(lra)). lia.
Qed.

Lemma source_markets_total (df : list ArrivalRecord) :
  sumZ (map snd (source_markets df)) = sumZ (map markets_of df).
Proof.
  unfold source_markets, series_sum. cbn [map snd].
  unfold sumZ at 1. cbn [foldr].
  induction df as [|r df IH]; [done|].
  unfold sumZ, markets_of in *. cbn [map foldr] in *. lia.
Qed.

Lemma sum_markets_bound (df : list ArrivalRecord) :
  Forall (λ r, total_arrivals r - 6 ≤ markets_of r ≤ total_arrivals r) df →
  sumZ (map total_arrivals df) - 6 * Z.of_nat (length df)
    ≤ sumZ (map markets_of df) ≤ sumZ (map total_arrivals df).
Proof.
  induction 1 as [|r df Hr _ IH]; [done|].
  unfold sumZ in *. cbn [map foldr length] in *. lia.
Qed.

(** For every date range on the generated frame, the seven totals of the
    source-market dictionary add up to the "Total Arrivals" figure less at
    most 6 per selected month. *)
Theorem source_markets_cover_total (noise : nat → R) (s e : Date) :
  let df := filterByDate date (load_sample_data noise) s e in
  (totalAndAverage df).1 - 6 * Z.of_nat (length df)
    ≤ sumZ (map snd (source_markets df))
    ≤ (totalAndAverage df).1.
Proof.
  intros df. rewrite source_markets_total. cbn [totalAndAverage fst].
  apply sum_markets_bound, Forall_forall.
  intros r [Hr _]%elem_of_filterByDate.
  by apply (proj1 (Forall_forall _ _) (load_sample_data_markets noise)).
Qed.

(** ** The revenue generator *)

Lemma revenue_covid_impact_by_index :
  RevenueGenerator.covid_impact
    = map (λ i, if in_disruption_window i then 0.25%R else 1%R) (seq 0 70).
Proof.
  unfold RevenueGenerator.covid_impact.
  change (map (λ d, if date_leb covid_start d && date_leb d covid_end
                    then 0.25%R else 1%R) dates)
    with (map (λ d, (λ b : bool, if b then 0.25%R else 1%R)
                      (date_leb covid_start d && date_leb d covid_end))
              dates).
  rewrite <- (map_map (λ d, date_leb covid_start d && date_leb d covid_end)
                      (λ b : bool, if b then 0.25%R else 1%R)).
  rewrite covid_mask_by_index, map_map. reflexivity.
Qed.

Lemma revenue_by_index :
  RevenueGenerator.revenue
    = map RevenueGenerator.revenue_formula (seq 0 70).
Proof.
  unfold RevenueGenerator.revenue, RevenueGenerator.trend,
    RevenueGenerator.seasonal, linspace.
  rewrite dates_length, revenue_covid_impact_by_index, !map_map.
  rewrite !zip_with_map_same.
  apply map_ext. intros i.
  unfold RevenueGenerator.revenue_formula, lerp,
    RevenueGenerator.base_revenue.
  replace (INR (70 - 1)) with 69%R by (simpl; lra).
  f_equal. f_equal.
  - f_equal. field.
  - f_equal. f_equal. field.
Qed.

Lemma load_revenue_data_by_index :
  RevenueGenerator.load_revenue_data
    = map (λ i, RevenueGenerator.revenue_row
                  (month_end (24228 + Z.of_nat i))
                  (RevenueGenerator.revenue_formula i))
          (seq 0 70).
Proof.
  unfold RevenueGenerator.load_revenue_data.
  rewrite revenue_by_index, dates_by_index.
  apply zip_with_map_same.
Qed.

Lemma revenue_formula_bounds (i : nat) :
  (i < 70)%nat →
  (425000 <= RevenueGenerator.revenue_formula i <= 4100000)%R.
Proof.
  intros Hi. unfold RevenueGenerator.revenue_formula, lerp.
  replace (INR (70 - 1)) with 69%R by (simpl; lra).
  pose proof (SIN_bound (2 * PI * 5 * INR i / 69)) as [Hs1 Hs2].
  pose proof (pos_INR i) as Hi0.
  assert (Hi69 : (INR i <= 69)%R).
  { replace 69%R with (INR 69) by (simpl; lra). apply le_INR. lia. }
  destruct (in_disruption_window i); lra.
Qed.

(** Although the revenue series has no floor, every generated revenue
    record has a total between 425,000 and 4,100,000: the revenue is never
    zero or negative, in the disruption window either. *)
Theorem load_revenue_data_bounds :
  length RevenueGenerator.load_revenue_data = 70%nat
  ∧ Forall (λ r,
      (425000 <= RevenueGenerator.total_revenue_usd r <= 4100000)%R)
     RevenueGenerator.load_revenue_data.
Proof.
  rewrite load_revenue_data_by_index. split.
  { by rewrite length_map, length_seq. }
  apply Forall_forall.
  intros r [i [<- Hi]]%list_elem_of_In%in_map_iff.
  apply in_seq in Hi.
  cbn [RevenueGenerator.revenue_row RevenueGenerator.total_revenue_usd].
  apply revenue_formula_bounds. lia.
Qed.

Lemma filterByDate_dates {Row : Type} (date_of : Row → Date)
    (df : list Row) (s e : Date) :
  map date_of (filterByDate date_of df s e)
    = filterByDate (λ d : Date, d) (map date_of df) s e.
Proof.
  unfold filterByDate. rewrite filter_map_comm. reflexivity.
Qed.

(** The arrivals frame and the revenue frame carry the same dates, so
    every date range selects the same months from both: the month count
    of the RevPAR card is the number of arrival records on the page. *)
Theorem frames_share_dates (noise : nat → R) (s e : Date) :
  map RevenueGenerator.date RevenueGenerator.load_revenue_data
    = map date (load_sample_data noise)
  ∧ map RevenueGenerator.date
        (filterByDate RevenueGenerator.date
           RevenueGenerator.load_revenue_data s e)
    = map date (filterByDate date (load_sample_data noise) s e)
  ∧ length (filterByDate RevenueGenerator.date
              RevenueGenerator.load_revenue_data s e)
    = length (filterByDate date (load_sample_data noise) s e).
Proof.
  assert (Hd : map RevenueGenerator.date RevenueGenerator.load_revenue_data
               = map date (load_sample_data noise)).
  { rewrite load_sample_data_dates, load_revenue_data_by_index,
      dates_by_index, map_map. reflexivity. }
  assert (Hf : map RevenueGenerator.date
                 (filterByDate RevenueGenerator.date
                    RevenueGenerator.load_revenue_data s e)
               = map date (filterByDate date (load_sample_data noise) s e)).
  { by rewrite !filterByDate_dates, Hd. }
  split; [exact Hd|]. split; [exact Hf|].
  apply (f_equal length) in Hf. by rewrite !length_map in Hf.
Qed.

(** ** The ROI calculator on all inputs *)

Lemma roi_years_eq (investment expected_occupancy avg_rate : Z) :
  let r := roiCalculator investment expected_occupancy avg_rate in
  roi_years r
    = if Qlt_le_dec 0 (net_profit r)
      then Qred (inject_Z investment / net_profit r) else 0%Q.
Proof. reflexivity. Qed.

Lemma roi_percentage_eq (investment expected_occupancy avg_rate : Z) :
  let r := roiCalculator investment expected_occupancy avg_rate in
  roi_percentage r
    = if Qlt_le_dec 0 (roi_years r)
      then Some (Qred (net_profit r / inject_Z investment * 100))
      else None.
Proof. reflexivity. Qed.

Lemma roi_net_profit_eq (investment expected_occupancy avg_rate : Z) :
  (net_profit (roiCalculator investment expected_occupancy avg_rate)
   == inject_Z (investment * expected_occupancy * avg_rate)
      * (511 # 16000000))%Q.
Proof.
  unfold roiCalculator. cbn [net_profit].
  rewrite !Qred_correct, !inject_Z_mult. field.
Qed.

Lemma roi_net_profit_pos (investment expected_occupancy avg_rate : Z) :
  (0 < net_profit (roiCalculator investment expected_occupancy avg_rate))%Q
  ↔ 0 < investment * expected_occupancy * avg_rate.
Proof.
  rewrite roi_net_profit_eq.
  unfold Qlt, Qmult, inject_Z. cbn [Qnum Qden]. lia.
Qed.

Lemma roi_years_closed (investment expected_occupancy avg_rate : Z) :
  0 < investment → 0 < expected_occupancy * avg_rate →
  let r := roiCalculator investment expected_occupancy avg_rate in
  (roi_years r
   == 16000000 / inject_Z (511 * (expected_occupancy * avg_rate)))%Q
  ∧ (0 < roi_years r)%Q.
Proof.
  intros Hi Hor r.
  assert (Hnet : (0 < net_profit r)%Q).
  { apply roi_net_profit_pos. nia. }
  assert (Hy : (roi_years r
    == 16000000 / inject_Z (511 * (expected_occupancy * avg_rate)))%Q).
  { subst r. rewrite roi_years_eq. cbv zeta.
    destruct (Qlt_le_dec 0 _) as [_|Hle];
      [|exfalso; by eapply Qlt_not_le].
    rewrite Qred_correct, roi_net_profit_eq, !inject_Z_mult.
    field.
    repeat split; intros H0; change 0%Q with (inject_Z 0) in H0;
      apply (proj1 (inject_Z_injective _ _)) in H0; nia. }
  split; [exact Hy|]. rewrite Hy.
  apply Qlt_shift_div_l.
  - change 0%Q with (inject_Z 0). rewrite <- Zlt_Qlt. lia.
  - reflexivity.
Qed.

Lemma roi_percentage_closed (investment expected_occupancy avg_rate : Z) :
  0 < investment → 0 < expected_occupancy * avg_rate →
  roi_percentage (roiCalculator investment expected_occupancy avg_rate)
    = Some (Qred (inject_Z (511 * (expected_occupancy * avg_rate))
                  / 160000)).
Proof.
  intros Hi Hor. rewrite roi_percentage_eq. cbv zeta.
  destruct (roi_years_closed _ _ _ Hi Hor) as [_ Hpos].
  destruct (Qlt_le_dec 0 _) as [_|Hle];
    [|exfalso; by eapply Qlt_not_le].
  f_equal. apply Qred_complete.
  rewrite roi_net_profit_eq, !inject_Z_mult. field.
  intros H0. change 0%Q with (inject_Z 0) in H0.
  apply (proj1 (inject_Z_injective _ _)) in H0. lia.
Qed.

(** Over the whole range of the three input widgets (investment 100,000
    to 10,000,000, occupancy 30 to 90, rate 50 to 500) the payback period
    lies between 0.69 and 20.88 years, so the "Payback Period" card never
    shows "N/A", and the "Annual ROI" card is always shown. *)
Theorem roi_widget_range (investment expected_occupancy avg_rate : Z) :
  100000 ≤ investment ≤ 10000000 →
  30 ≤ expected_occupancy ≤ 90 →
  50 ≤ avg_rate ≤ 500 →
  let r := roiCalculator investment expected_occupancy avg_rate in
  (69 # 100 <= roi_years r <= 2088 # 100)%Q
  ∧ payback_period r = Some (roi_years r)
  ∧ is_Some (roi_percentage r).
Proof.
  intros Hi Ho Hr r.
  assert (Hor : 0 < expected_occupancy * avg_rate) by nia.
  destruct (roi_years_closed investment _ _ ltac:(lia) Hor) as [Hy Hpos].
  fold r in Hy, Hpos.
  assert (Hden : (0 < inject_Z (511 * (expected_occupancy * avg_rate)))%Q).
  { change 0%Q with (inject_Z 0). rewrite <- Zlt_Qlt. lia. }
  assert (Hb : (69 # 100 <= roi_years r <= 2088 # 100)%Q).
  { rewrite Hy. split.
    - apply Qle_shift_div_l; [exact Hden|].
      unfold Qle, Qmult, inject_Z. cbn [Qnum Qden]. nia.
    - apply Qle_shift_div_r; [exact Hden|].
      unfold Qle, Qmult, inject_Z. cbn [Qnum Qden]. nia. }
  split; [exact Hb|]. split.
  - unfold payback_period.
    destruct (Qlt_le_dec 0 (roi_years r)) as [_|Hle];
      [|exfalso; exact (Qlt_not_le _ _ Hpos Hle)].
    destruct (Qlt_le_dec (roi_years r) 100) as [_|Hge]; [done|].
    exfalso. destruct Hb as [_ Hb].
    assert (H100 : (100 <= 2088 # 100)%Q) by (by eapply Qle_trans).
    by vm_compute in H100.
  - subst r. rewrite roi_percentage_closed by (lia || done). done.
Qed.

Lemma roi_widget_range_witness :
  payback_period (roiCalculator 2000000 65 150)
    = Some (roi_years (roiCalculator 2000000 65 150)).
Proof.
  refine (proj1 (proj2
    (roi_widget_range 2000000 65 150 _ _ _))); lia.
Defined.

(** The calculator divides by the net profit only when it is positive and
    by the investment only when both it and the net profit are positive.
    When the net profit is not positive (an investment, occupancy or rate
    of 0 among the cases) the payback is 0, shown as "N/A", and no ROI is
    shown. *)
Theorem roi_divisions_guarded (investment expected_occupancy avg_rate : Z) :
  let r := roiCalculator investment expected_occupancy avg_rate in
  (∀ pct, roi_percentage r = Some pct →
          0 < investment ∧ (0 < net_profit r)%Q
          ∧ 0 < expected_occupancy * avg_rate)
  ∧ (investment * expected_occupancy * avg_rate ≤ 0 →
     roi_years r = 0%Q ∧ payback_period r = None
     ∧ roi_percentage r = None).
Proof.
  intros r. split.
  - intros pct Hpct. subst r.
    rewrite roi_percentage_eq in Hpct. cbv zeta in Hpct.
    destruct (Qlt_le_dec 0 (roi_years _)) as [Hy|]; [|done].
    rewrite roi_years_eq in Hy. cbv zeta in Hy.
    destruct (Qlt_le_dec 0 (net_profit _)) as [Hnet|];
      [|by apply Qlt_irrefl in Hy].
    pose proof (proj1 (roi_net_profit_pos _ _ _) Hnet) as Hprod.
    rewrite Qred_correct in Hy.
    assert (Hinv : 0 < investment).
    { rewrite Zlt_Qlt. change (inject_Z 0) with 0%Q.
      assert (E : (inject_Z investment
                   == inject_Z investment / net_profit
                        (roiCalculator investment expected_occupancy
                           avg_rate)
                      * net_profit
                          (roiCalculator investment expected_occupancy
                             avg_rate))%Q).
      { field. intros H0. rewrite H0 in Hnet.
        by apply Qlt_irrefl in Hnet. }
      rewrite E. by apply Qmult_lt_0_compat. }
    repeat split; [done|done|nia].
  - intros Hprod.
    assert (Hy : roi_years r = 0%Q).
    { subst r. rewrite roi_years_eq. cbv zeta.
      destruct (Qlt_le_dec 0 _) as [Hnet|]; [|done].
      apply roi_net_profit_pos in Hnet. lia. }
    split; [exact Hy|]. split.
    + unfold payback_period. rewrite Hy. reflexivity.
    + subst r. rewrite roi_percentage_eq. cbv zeta. rewrite Hy.
      reflexivity.
Qed.

Lemma roi_divisions_guarded_witness :
  roi_years (roiCalculator 0 65 150) = 0%Q
  ∧ payback_period (roiCalculator 0 65 150) = None
  ∧ roi_percentage (roiCalculator 0 65 150) = None.
Proof.
  refine (proj2 (roi_divisions_guarded 0 65 150) _). lia.
Defined.

(** ** Revenue figures *)

Lemma sumQ_nil : sumQ [] = 0%Q.
Proof. reflexivity. Qed.

Lemma sumQ_cons (x : Q) (xs : list Q) : (sumQ (x :: xs) == x + sumQ xs)%Q.
Proof. unfold sumQ. cbn [foldr]. by rewrite !Qred_correct. Qed.

Lemma sumQ_filter_le {A : Type} (f : A → Q) (P : A → Prop)
    `{!∀ x, Decision (P x)} (l : list A) :
  Forall (λ x, (0 <= f x)%Q) l →
  (0 <= sumQ (map f (filter P l)) <= sumQ (map f l))%Q.
Proof.
  induction 1 as [|x l Hx _ IH]; [by vm_compute|].
  cbn [map]. rewrite sumQ_cons.
  destruct (decide (P x)).
  - rewrite filter_cons_True by done. cbn [map]. rewrite sumQ_cons.
    destruct IH as [IH1 IH2]. split.
    + replace 0%Q with (0 + 0)%Q by reflexivity.
      by apply Qplus_le_compat.
    + apply Qplus_le_compat; [apply Qle_refl|done].
  - rewrite filter_cons_False by done.
    destruct IH as [IH1 IH2]. split; [done|].
    eapply Qle_trans; [exact IH2|].
    rewrite <- (Qplus_0_l (sumQ (map f l))) at 1.
    apply Qplus_le_compat; [done|apply Qle_refl].
Qed.

(** For a revenue frame without negative totals and with a positive sum,
    the delta of the "Total Revenue" card (filtered total over full total,
    as a percentage, less 100) is a finite number that is never
    positive, whatever the date range; it is 0 when only the full frame
    is shown. *)
Theorem revenue_delta_never_positive (df_revenue : list RevenueRecord)
    (s e : Date) :
  Forall (λ r, (0 <= total_revenue_usd r)%Q) df_revenue →
  (0 < sumQ (map total_revenue_usd df_revenue))%Q →
  (∃ q, revenue_delta df_revenue (filterByDate rev_date df_revenue s e)
        = Finite q ∧ (-100 <= q <= 0)%Q)
  ∧ revenue_delta df_revenue df_revenue = Finite 0.
Proof.
  intros Hnn Hpos.
  assert (Hne : ¬ (sumQ (map total_revenue_usd df_revenue) == 0)%Q).
  { intros H0. rewrite H0 in Hpos. by apply Qlt_irrefl in Hpos. }
  split.
  - unfold revenue_delta. rewrite np_truediv_nonzero by done.
    cbn [np_pct_change_100]. eexists. split; [reflexivity|].
    rewrite !Qred_correct.
    pose proof (sumQ_filter_le total_revenue_usd
                  (λ r, mask rev_date s e r = true) df_revenue Hnn)
      as [H0 H1].
    fold (filterByDate rev_date df_revenue s e) in H0, H1.
    set (a := sumQ (map total_revenue_usd
                        (filterByDate rev_date df_revenue s e))) in *.
    set (b := sumQ (map total_revenue_usd df_revenue)) in *.
    assert (Hq0 : (0 <= a / b)%Q).
    { apply Qle_shift_div_l; [done|]. by rewrite Qmult_0_l. }
    assert (Hq1 : (a / b <= 1)%Q).
    { apply Qle_shift_div_r; [done|]. by rewrite Qmult_1_l. }
    split.
    + unfold Qminus.
      apply Qle_trans with (0 * 100 + - (100))%Q; [by vm_compute|].
      apply Qplus_le_compat; [|apply Qle_refl].
      apply Qmult_le_compat_r; [done|by vm_compute].
    + unfold Qminus.
      apply Qle_trans with (1 * 100 + - (100))%Q; [|by vm_compute].
      apply Qplus_le_compat; [|apply Qle_refl].
      apply Qmult_le_compat_r; [done|by vm_compute].
  - unfold revenue_delta. rewrite np_truediv_nonzero by done.
    cbn [np_pct_change_100]. f_equal. apply Qred_zero.
    rewrite Qred_correct. field. exact Hne.
Qed.

Lemma revenue_delta_never_positive_witness :
  revenue_delta two_revenue_months two_revenue_months = Finite 0.
Proof.
  refine (proj2 (revenue_delta_never_positive two_revenue_months
                   (mkDate 2024 10 1) (mkDate 2024 10 31) _ _)).
  - repeat constructor; by vm_compute.
  - by vm_compute.
Defined.

Example revenue_delta_one_month :
  revenue_delta two_revenue_months
    (filterByDate rev_date two_revenue_months
       (mkDate 2024 10 1) (mkDate 2024 10 31))
  = Finite (- (100 # 3)).
Proof. vm_compute. reflexivity. Qed.

(** ** Seasonality again *)

Lemma with_month_columns_idem (r : ArrivalRecord) :
  with_month_columns (with_month_columns r) = with_month_columns r.
Proof.
  unfold with_month_columns, set_column.
  cbn [date total_arrivals international regional zambia zimbabwe
       botswana south_africa europe north_america asia extra].
  f_equal. apply map_eq. intros k.
  destruct (decide (k = "month_name"%string)) as [->|Hmn].
  { by rewrite !lookup_insert_eq. }
  rewrite !(lookup_insert_ne _ "month_name"%string) by done.
  destruct (decide (k = "month"%string)) as [->|Hm].
  { by rewrite !lookup_insert_eq. }
  repeat (rewrite lookup_insert_ne by done). reflexivity.
Qed.

(** Running the seasonality computation on the frame it has left behind
    gives the same twelve means and leaves the frame as it is: the two
    helper columns are overwritten with the values they hold. *)
Theorem seasonality_tab_rerun (df : list ArrivalRecord) :
  seasonality_tab (seasonality_tab df).2 = seasonality_tab df.
Proof.
  rewrite (seasonality_tab_unfold df). cbn [snd].
  rewrite (seasonality_tab_unfold (map with_month_columns df)).
  rewrite map_map.
  rewrite (map_ext (λ x, with_month_columns (with_month_columns x))
                   with_month_columns with_month_columns_idem).
  reflexivity.
Qed.

(** When exactly one record of the collection falls in a calendar month,
    the mean shown for that month is that record's [total_arrivals]: on
    twelve records of one year the bars are the monthly values
    themselves. *)
Theorem monthly_mean_of_single_record (df : list ArrivalRecord)
    (r : ArrivalRecord) (name : string) :
  name ∈ month_names →
  filter (λ r', strftime_B (date r') = name) df = [r] →
  ∃ q, (name, Finite q) ∈ monthly_avg (peakAndLowSeason df).1
       ∧ (q == inject_Z (total_arrivals r))%Q.
Proof.
  intros Hname Hone.
  rewrite peakAndLowSeason_result. cbn [monthly_avg].
  rewrite seasonality_tab_means.
  eexists. split.
  - apply list_elem_of_In, in_map_iff. exists name.
    split; [|by apply list_elem_of_In].
    rewrite Hone. cbn [map]. rewrite series_mean_cons. reflexivity.
  - rewrite Qred_correct. cbn [sumZ foldr length map].
    rewrite Z.add_0_r. change (inject_Z (Z.of_nat 1)) with 1%Q. field.
Qed.

Lemma monthly_mean_of_single_record_witness :
  ∃ q, ("October"%string, Finite q)
         ∈ monthly_avg (peakAndLowSeason three_months).1
       ∧ (q == inject_Z 21000)%Q.
Proof.
  refine (monthly_mean_of_single_record three_months
            (sample_row (mkDate 2024 10 31) 21000) "October" _ _).
  - apply list_elem_of_In. vm_compute. tauto.
  - reflexivity.
Defined.

(** ** The KPI row on the generated frame *)

Lemma load_sample_data_ge_1000 (noise : nat → R) :
  Forall (λ r, 1000 ≤ total_arrivals r) (load_sample_data noise).
Proof.
  rewrite load_sample_data_by_index. apply Forall_forall.
  intros r [i [<- _]]%list_elem_of_In%in_map_iff.
  cbn [arrival_row total_arrivals].
  apply astype_int_ge; [lia|]. apply arrivals_formula_ge_1000.
Qed.

Lemma filtered_ge_1000 (noise : nat → R) (s e : Date) :
  Forall (λ r, 1000 ≤ total_arrivals r)
         (filterByDate date (load_sample_data noise) s e).
Proof.
  apply Forall_forall. intros r [Hr _]%elem_of_filterByDate.
  by apply (proj1 (Forall_forall _ _) (load_sample_data_ge_1000 noise)).
Qed.

Lemma sumZ_ge_1000 (df : list ArrivalRecord) :
  Forall (λ r, 1000 ≤ total_arrivals r) df →
  1000 * Z.of_nat (length df) ≤ sumZ (map total_arrivals df).
Proof.
  induction 1 as [|r df Hr _ IH]; [done|].
  unfold sumZ in *. cbn [map foldr length] in *. lia.
Qed.

(** For every date range that selects at least one month of the
    generated frame, "Total Arrivals" is at least 1000 per selected month
    and "Avg Monthly Arrivals" is a finite number of at least 1000. *)
Theorem kpi_on_generated_frame (noise : nat → R) (s e : Date) :
  let df := filterByDate date (load_sample_data noise) s e in
  df ≠ [] →
  1000 * Z.of_nat (length df) ≤ (totalAndAverage df).1
  ∧ ∃ q, (totalAndAverage df).2 = Finite q ∧ (1000 <= q)%Q.
Proof.
  intros df Hne.
  pose proof (sumZ_ge_1000 df (filtered_ge_1000 noise s e)) as Hsum.
  split; [exact Hsum|].
  unfold totalAndAverage, series_mean. cbn [snd].
  rewrite length_map.
  assert (Hlen : 0 < Z.of_nat (length df)).
  { destruct df; [done|]. cbn [length]. lia. }
  rewrite np_truediv_by_int by lia.
  eexists. split; [reflexivity|].
  rewrite Qred_correct. apply Qle_shift_div_l.
  - change 0%Q with (inject_Z 0). rewrite <- Zlt_Qlt. exact Hlen.
  - change 1000%Q with (inject_Z 1000).
    rewrite <- inject_Z_mult, <- Zle_Qle. exact Hsum.
Qed.

Lemma kpi_on_generated_frame_witness :
  ∃ q, (totalAndAverage
          (filterByDate date (load_sample_data noise_seed42_head)
             (mkDate 2023 11 1) (mkDate 2024 10 31))).2 = Finite q
       ∧ (1000 <= q)%Q.
Proof.
  refine (proj2 (kpi_on_generated_frame noise_seed42_head
                   (mkDate 2023 11 1) (mkDate 2024 10 31) _)).
  rewrite default_range_rows. discriminate.
Defined.

(** On the generated frame the previous year is always positive, so the
    first tab shows its "YoY Growth" card exactly when the range selects
    at least 24 months, and the figure is then the KPI's. *)
Theorem growth_card_shown_from_24_months (noise : nat → R) (s e : Date) :
  let df := filterByDate date (load_sample_data noise) s e in
  (is_Some (growth_stats_yoy df) ↔ (24 ≤ length df)%nat)
  ∧ ((24 ≤ length df)%nat → growth_stats_yoy df = Some (yoyGrowth df)).
Proof.
  intros df.
  assert (Hshown : (24 ≤ length df)%nat →
                   growth_stats_yoy df = Some (yoyGrowth df)).
  { intros H24. unfold growth_stats_yoy, yoyGrowth.
    rewrite !(bool_decide_eq_true_2 (24 ≤ _)%nat) by done.
    rewrite (bool_decide_eq_true_2 (12 ≤ _)%nat) by lia.
    assert (Hprev : 0 < series_sum (map total_arrivals (iloc_m24_m12 df))).
    { pose proof (sumZ_ge_1000 (iloc_m24_m12 df)) as Hs.
      assert (Hlen : length (iloc_m24_m12 df) = 12%nat).
      { unfold iloc_m24_m12. rewrite length_take, length_drop. lia. }
      rewrite Hlen in Hs. unfold series_sum.
      assert (1000 * Z.of_nat 12 ≤ sumZ (map total_arrivals
                                           (iloc_m24_m12 df))); [|lia].
      apply Hs. unfold iloc_m24_m12.
      apply Forall_take, Forall_drop, filtered_ge_1000. }
    by rewrite !bool_decide_eq_true_2 by done. }
  split; [|exact Hshown]. split.
  - intros [g Hg]. destruct (decide (24 ≤ length df)%nat); [done|].
    rewrite growth_stats_yoy_short in Hg by lia. done.
  - intros H24. rewrite Hshown by done. done.
Qed.

Lemma growth_card_shown_from_24_months_witness :
  growth_stats_yoy
    (filterByDate date (load_sample_data noise_seed42_head)
       (mkDate 2019 1 1) (mkDate 2024 10 31))
  = Some (yoyGrowth
            (filterByDate date (load_sample_data noise_seed42_head)
               (mkDate 2019 1 1) (mkDate 2024 10 31))).
Proof.
  refine (proj2 (growth_card_shown_from_24_months noise_seed42_head
                   (mkDate 2019 1 1) (mkDate 2024 10 31)) _).
  assert (H : map date (filterByDate date
                (load_sample_data noise_seed42_head)
                (mkDate 2019 1 1) (mkDate 2024 10 31)) = dates).
  { rewrite filterByDate_dates, load_sample_data_dates.
    vm_compute. reflexivity. }
  apply (f_equal length) in H.
  rewrite length_map, dates_length in H. rewrite H. lia.
Defined.

(** ** The visitor-trends section *)

Lemma peak_month_date_nonempty (df : list ArrivalRecord) :
  df ≠ [] → ∃ d, peak_month_date df = inr d.
Proof.
  intros Hne. unfold peak_month_date.
  pose proof (int_idxmax_spec df) as H.
  destruct (int_idxmax df) as [r|]; [by eexists|done].
Qed.

(** C7 as stated fails.  A range inside October 2024 selects no record
    of the generated frame; on that empty collection the section stops at
    the "Peak Month" card with pandas' [ValueError], the seasonality
    computation is not run, and what is raised is not the
    [InsufficientDataError] of the specification's contract. *)
Lemma trends_section_empty_ValueError :
  mid_october_selection = []
  ∧ trends_section mid_october_selection = inl (PyRaised ValueError)
  ∧ spec_peakAndLowSeason mid_october_selection
    = inl InsufficientDataError
  ∧ trends_section mid_october_selection
    ≠ inl (SpecRaised InsufficientDataError).
Proof.
  assert (H : mid_october_selection = []).
  { unfold mid_october_selection. cbn [filter_block].
    by apply filterByDate_within_month. }
  rewrite H. split; [reflexivity|]. split; [reflexivity|].
  split; [reflexivity|discriminate].
Qed.

(** C7, amended.  On a collection with at least one record the section
    reaches the seasonality computation, which groups the records by the
    calendar month name of their date, across years, and takes the mean of
    [total_arrivals] per month; the peak month is a month whose mean is
    the largest, the low month one whose mean is the smallest, and the
    seasonality index is the peak mean divided by the low mean; there it
    agrees with the specification's contract. *)
Theorem peakAndLowSeason_by_month (df : list ArrivalRecord) :
  df ≠ [] →
  Forall (λ r, 1 ≤ month (date r) ≤ 12) df →
  (∃ d, trends_section df = inr (d, (peakAndLowSeason df).1))
  ∧ spec_peakAndLowSeason df = inr (peakAndLowSeason df).1
  ∧ monthly_avg (peakAndLowSeason df).1
    = map (λ name,
             (name,
              series_mean
                (map total_arrivals
                     (filter (λ r, strftime_B (date r) = name) df))))
          month_names
  ∧ ∃ (peak low : string) (peak_avg low_avg : Q),
      peak_month (peakAndLowSeason df).1 = Some peak
      ∧ low_month (peakAndLowSeason df).1 = Some low
      ∧ (peak, Finite peak_avg) ∈ monthly_avg (peakAndLowSeason df).1
      ∧ (low, Finite low_avg) ∈ monthly_avg (peakAndLowSeason df).1
      ∧ peak_mean (peakAndLowSeason df).1 = Finite peak_avg
      ∧ low_mean (peakAndLowSeason df).1 = Finite low_avg
      ∧ (∀ name avg,
           (name, Finite avg) ∈ monthly_avg (peakAndLowSeason df).1 →
           (low_avg <= avg <= peak_avg)%Q)
      ∧ seasonality_index (peakAndLowSeason df).1
        = np_truediv (Finite peak_avg) (Finite low_avg).
Proof.
  intros Hne Hmonths.
  split.
  { destruct (peak_month_date_nonempty df Hne) as [d Hd].
    exists d. unfold trends_section. by rewrite Hd. }
  split; [by destruct df|].
  rewrite peakAndLowSeason_result. cbn [monthly_avg peak_month low_month
    peak_mean low_mean seasonality_index].
  split; [apply seasonality_tab_means|].
  destruct df as [|r df]; [done|].
  apply Forall_cons in Hmonths as [Hr _].
  destruct (seasonality_some_month r df Hr) as [q0 Hq0].
  pose proof (idxmax_series_max _ (seasonality_means_like (r :: df)))
    as Hmax.
  pose proof (idxmin_series_min _ (seasonality_means_like (r :: df)))
    as Hmin.
  destruct (idxmax _) as [peak|]; last first.
  { destruct Hmax as [_ Hall].
    by apply (proj1 (Forall_forall _ _) Hall) in Hq0. }
  destruct (idxmin _) as [low|]; last first.
  { destruct Hmin as [_ Hall].
    by apply (proj1 (Forall_forall _ _) Hall) in Hq0. }
  destruct Hmax as (pa & Hpin & Hpval & Hpall).
  destruct Hmin as (la & Hlin & Hlval & Hlall).
  exists peak, low, pa, la. rewrite Hpval, Hlval.
  repeat (split; [done|]). split; [|done].
  intros name avg Hin. split.
  - by apply (proj1 (Forall_forall _ _) Hlall _ Hin).
  - by apply (proj1 (Forall_forall _ _) Hpall _ Hin).
Qed.

Lemma peakAndLowSeason_by_month_witness :
  three_months ≠ []
  ∧ Forall (λ r, 1 ≤ month (date r) ≤ 12) three_months
  ∧ trends_section three_months
    = inr (mkDate 2024 10 31, (peakAndLowSeason three_months).1)
  ∧ spec_peakAndLowSeason three_months
    = inr (peakAndLowSeason three_months).1.
Proof.
  assert (H1 : three_months ≠ []) by discriminate.
  assert (H2 : Forall (λ r, 1 ≤ month (date r) ≤ 12) three_months).
  { repeat constructor; simpl; lia. }
  split; [exact H1|]. split; [exact H2|]. split; [reflexivity|].
  exact (proj1 (proj2 (peakAndLowSeason_by_month three_months H1 H2))).
Defined.
